(** * utils/scratch.py: a client of the MediaWiki search and links API

    A shallow embedding of the three functions of [src/utils/scratch.py]
    ([cleanhtml], [search_title], [get_links]) and of the pieces of Python
    they rest on: JSON-shaped values, the exceptions raised by subscripting
    and iteration, a backtracking matcher for the regular expression
    [<.*?>] and [re.sub].

    The HTTP session is modelled by the list of decoded JSON bodies that the
    successive [sess.get] calls receive; every function returns, next to its
    outcome, the trace of the requests it sent and of the lines it logged. *)

From Equations Require Import Equations.
From Stdlib Require Import ZArith String Ascii Bool Arith Lia DecimalString List.
Import ListNotations.

#[local] Set Warnings "-register-all".

Local Open Scope string_scope.
Local Open Scope nat_scope.
Local Open Scope list_scope.

(* ===================================================================== *)
(** ** Python values and exceptions *)
(* ===================================================================== *)

Module Py.

(** The values [resp.json()] produces and the code passes around: [None],
    booleans, integers, strings, lists and dictionaries.  A dictionary is
    the list of its items in insertion order (its keys are distinct; the
    operations below are defined on every list).  Numbers are integers: the
    numeric fields the code reads ([totalhits], [ns]) are integer valued.
    A string is the sequence of the bytes of its UTF-8 encoding; the
    characters the code looks for (space, ['<'], ['>'], line feed) are
    single bytes that occur in no longer encoding. *)
Inductive value : Type :=
| VNone
| VBool (b : bool)
| VInt (n : Z)
| VStr (s : string)
| VList (items : list value)
| VDict (items : list (string * value)).

(** The exceptions the modelled code can raise. *)
Inductive exn : Type := KeyError | TypeError | AttributeError.

(** The result of evaluating an expression: a value or a raised exception. *)
Inductive res (A : Type) : Type :=
| Ok (a : A)
| Raise (e : exn).
Arguments Ok {A} a.
Arguments Raise {A} e.

Definition bind {A B : Type} (m : res A) (k : A -> res B) : res B :=
  match m with
  | Ok a => k a
  | Raise e => Raise e
  end.

Notation "x <- m ;; k" := (bind m (fun x => k))
  (at level 61, m at next level, right associativity).

(** [d[k]] on the items of a dictionary. *)
Fixpoint dict_get (k : string) (d : list (string * value)) : option value :=
  match d with
  | [] => None
  | (k', v) :: d' => if String.eqb k k' then Some v else dict_get k d'
  end.

(** [d[k] = v]: an existing key keeps its place, a new one goes last. *)
Fixpoint dict_set (k : string) (v : value) (d : list (string * value))
  : list (string * value) :=
  match d with
  | [] => [(k, v)]
  | (k', v') :: d' =>
      if String.eqb k k' then (k', v) :: d' else (k', v') :: dict_set k v d'
  end.

(** [o[k]] for a string key [k]: [KeyError] on a dictionary without the
    key, [TypeError] on everything that is not a dictionary. *)
Definition getitem (o : value) (k : string) : res value :=
  match o with
  | VDict d =>
      match dict_get k d with
      | Some v => Ok v
      | None => Raise KeyError
      end
  | _ => Raise TypeError
  end.

(** [o.popitem()[1]]: the value of the item inserted last; [KeyError] on
    an empty dictionary, [AttributeError] on any other value. *)
Definition popitem_value (o : value) : res value :=
  match o with
  | VDict d =>
      match rev d with
      | [] => Raise KeyError
      | (_, v) :: _ => Ok v
      end
  | _ => Raise AttributeError
  end.

Definition chars (s : string) : list ascii := list_ascii_of_string s.
Definition str_of (l : list ascii) : string := string_of_list_ascii l.

(** The elements a [for] loop visits: the items of a list, the keys of a
    dictionary, the characters of a string; [TypeError] otherwise. *)
Definition iterate (o : value) : res (list value) :=
  match o with
  | VList l => Ok l
  | VDict d => Ok (map (fun kv => VStr (fst kv)) d)
  | VStr s => Ok (map (fun c => VStr (String c EmptyString)) (chars s))
  | _ => Raise TypeError
  end.

(** [o == n] for an integer literal [n]: [False == 0] and [True == 1] hold
    in Python, every other non-integer differs from an integer. *)
Definition eq_int (o : value) (n : Z) : bool :=
  match o with
  | VInt m => Z.eqb m n
  | VBool b => Z.eqb (if b then 1 else 0) n
  | _ => false
  end.

(** [s.replace(" ", "_")]. *)
Definition replace_space (s : string) : string :=
  str_of (map (fun c => if Ascii.eqb c " " then "_"%char else c) (chars s)).

(** [str(n)] for an integer: its decimal digits, after a minus sign when
    it is negative. *)
Definition str (n : Z) : string := NilZero.string_of_int (Z.to_int n).

End Py.
Import Py.

(* ===================================================================== *)
(** ** The regular expressions of [re] that the code uses *)
(* ===================================================================== *)

Module Re.

Definition newline : ascii := "010"%char.

(** One character position of a pattern: a literal, or [.] which, without
    the DOTALL flag, matches anything but a newline. *)
Inductive atom : Type :=
| Lit (c : ascii)
| Dot.

(** A pattern is a sequence of atoms, each taken once or under the lazy
    star [*?]. *)
Inductive piece : Type :=
| One (a : atom)
| LazyStar (a : atom).

Definition regex : Type := list piece.

Definition atom_matches (a : atom) (c : ascii) : bool :=
  match a with
  | Lit d => Ascii.eqb c d
  | Dot => negb (Ascii.eqb c newline)
  end.

(** The backtracking matcher, anchored at the head of [s]: the text left
    after the first match in the engine's priority order.  A lazy star
    first tries to go on with the rest of the pattern and takes one more
    character only when that fails. *)
Fixpoint match_here (re : regex) (s : list ascii) : option (list ascii) :=
  match re with
  | [] => Some s
  | One a :: re' =>
      match s with
      | c :: s' => if atom_matches a c then match_here re' s' else None
      | [] => None
      end
  | LazyStar a :: re' =>
      (fix lazy (s : list ascii) : option (list ascii) :=
         match match_here re' s with
         | Some rest => Some rest
         | None =>
             match s with
             | c :: s' => if atom_matches a c then lazy s' else None
             | [] => None
             end
         end) s
  end.

(** The words a pattern denotes, whatever the order in which the engine
    tries them. *)
Fixpoint lang (re : regex) (m : list ascii) : Prop :=
  match re with
  | [] => m = []
  | One a :: re' =>
      exists c m', m = c :: m' /\ atom_matches a c = true /\ lang re' m'
  | LazyStar a :: re' =>
      exists b m',
        m = b ++ m' /\ Forall (fun c => atom_matches a c = true) b /\ lang re' m'
  end.

Definition inspect {A : Type} (a : A) : {b : A | a = b} := exist _ a eq_refl.

(** [re.sub(re, repl, s)]: scan [s] from the left; where the pattern
    matches, write [repl] and go on after the match; elsewhere copy one
    character.  An empty match writes [repl] and copies the character it
    stands before. *)
Equations? sub (re : regex) (repl : list ascii) (s : list ascii)
  : list ascii by wf (length s) lt :=
  sub re repl [] with match_here re [] := {
    | Some _ := repl;
    | None := [] };
  sub re repl (c :: s') with inspect (match_here re (c :: s')) := {
    | exist _ None _ := c :: sub re repl s';
    | exist _ (Some rest) _ with inspect (length rest <? length (c :: s')) := {
        | exist _ true Hlt := repl ++ sub re repl rest;
        | exist _ false _ := repl ++ c :: sub re repl s' } }.
Proof.
  now apply Nat.ltb_lt.
Qed.

End Re.

(* ===================================================================== *)
(** ** [cleanhtml] *)
(* ===================================================================== *)

(** [cleanr = re.compile(r"<.*?>")]. *)
Definition cleanr : Re.regex :=
  [Re.One (Re.Lit "<"); Re.LazyStar Re.Dot; Re.One (Re.Lit ">")].

(** [cleanhtml(raw_html)]: [re.sub(cleanr, "", raw_html)]. *)
Definition cleanhtml (raw_html : string) : string :=
  str_of (Re.sub cleanr [] (chars raw_html)).

(* ===================================================================== *)
(** ** Traces and outcomes *)
(* ===================================================================== *)

Definition WIKIURL : string := "https://en.wikipedia.org/w/api.php".

Inductive level : Type := INFO | ERROR.

(** What a call does to the outside world, in order: the GET requests of
    its session (url and [params]) and the records handed to [logging]
    (level, format string, arguments). *)
Inductive event : Type :=
| Get (url : string) (params : value)
| Log (lvl : level) (msg : string) (args : list value).

(** How a call ends: it returns, it raises, or it is still waiting for the
    answer to a request when the modelled responses are used up. *)
Inductive outcome (A : Type) : Type :=
| Returned (a : A)
| Raised (e : exn)
| Awaiting.
Arguments Returned {A} a.
Arguments Raised {A} e.
Arguments Awaiting {A}.

Definition run (A : Type) : Type := (outcome A * list event)%type.

Definition done {A : Type} (o : outcome A) : run A := (o, []).

Definition emit {A : Type} (e : event) (r : run A) : run A :=
  (fst r, e :: snd r).

(* ===================================================================== *)
(** ** [search_title] *)
(* ===================================================================== *)

(** The default of the parameter [srlimit]. *)
Definition default_srlimit : Z := 5.

(** The [params] dictionary of a search request. *)
Definition search_params (title_guess : string) (srlimit : Z) : value :=
  VDict [("action", VStr "query"); ("format", VStr "json");
         ("list", VStr "search"); ("srlimit", VStr (str srlimit));
         ("srsearch", VStr (replace_space title_guess))].

(** [json_data["query"]["searchinfo"][field]]. *)
Definition searchinfo (json_data : value) (field : string) : res value :=
  query <- getitem json_data "query" ;;
  info <- getitem query "searchinfo" ;;
  getitem info field.

(** One turn of the loop over the hits: [page["snippet"] =
    cleanhtml(page["snippet"])]; [re.sub] raises [TypeError] on a snippet
    that is not a string. *)
Definition clean_page (page : value) : res value :=
  snippet <- getitem page "snippet" ;;
  match snippet, page with
  | VStr raw, VDict d => Ok (VDict (dict_set "snippet" (VStr (cleanhtml raw)) d))
  | _, _ => Raise TypeError
  end.

(** [for page in ...: page["snippet"] = ...; suggestions.append(page)]. *)
Fixpoint clean_pages (pages : list value) (suggestions : list value)
  : res (list value) :=
  match pages with
  | [] => Ok suggestions
  | page :: pages' =>
      page' <- clean_page page ;;
      clean_pages pages' (suggestions ++ [page'])
  end.

(** What [for page in json_data["query"]["search"]] visits. *)
Definition hit_list (json_data : value) : res (list value) :=
  query <- getitem json_data "query" ;;
  hits <- getitem query "search" ;;
  iterate hits.

(** The [else] branch: the hits of the response, cleaned, in order. *)
Definition collect_hits (json_data : value) : res (list value) :=
  pages <- hit_list json_data ;;
  clean_pages pages [].

(** [except KeyError: suggestions = None] around the retry. *)
Definition except_KeyError (r : run (option (list value)))
  : run (option (list value)) :=
  match fst r with
  | Raised KeyError => (Returned None, snd r)
  | _ => r
  end.

(** [search_title(title_guess, srlimit)].  [responses] are the bodies the
    successive requests receive.  The retry is a call with one argument,
    hence with the default [srlimit]; a suggestion that is not a string has
    no [replace] method, so that call raises [AttributeError] before it
    sends anything. *)
Fixpoint search_title (responses : list value) (title_guess : string)
  (srlimit : Z) {struct responses} : run (option (list value)) :=
  emit (Get WIKIURL (search_params title_guess srlimit))
    match responses with
    | [] => done Awaiting
    | json_data :: later =>
        match searchinfo json_data "totalhits" with
        | Raise e => done (Raised e)
        | Ok totalhits =>
            if eq_int totalhits 0 then
              match searchinfo json_data "suggestion" with
              | Raise KeyError => done (Returned None)
              | Raise e => done (Raised e)
              | Ok (VStr new_guess) =>
                  except_KeyError (search_title later new_guess default_srlimit)
              | Ok _ => done (Raised AttributeError)
              end
            else
              match collect_hits json_data with
              | Ok suggestions => done (Returned (Some suggestions))
              | Raise e => done (Raised e)
              end
        end
    end.

(* ===================================================================== *)
(** ** [get_links] *)
(* ===================================================================== *)

(** [num_links] as a value, for the log record that prints it. *)
Definition of_num_links (num_links : option Z) : value :=
  match num_links with
  | Some n => VInt n
  | None => VNone
  end.

(** The page size: [pllimit = num_links], and 500 [if num_links is None or
    num_links > 500]. *)
Definition page_size (num_links : option Z) : Z :=
  match num_links with
  | None => 500
  | Some n => if (n >? 500)%Z then 500 else n
  end.

(** The [params] dictionary of a links request; [plcontinue] is added
    unless it [is None]. *)
Definition links_params (page_name : string) (pllimit : Z) (plcontinue : value)
  : value :=
  VDict ([("action", VStr "query"); ("format", VStr "json");
          ("titles", VStr (replace_space page_name)); ("prop", VStr "links");
          ("pllimit", VInt pllimit)]
         ++ match plcontinue with
            | VNone => []
            | cursor => [("plcontinue", cursor)]
            end).

(** [len(pl) == num_links]. *)
Definition len_is (pl : list value) (num_links : option Z) : bool :=
  match num_links with
  | Some n => Z.eqb (Z.of_nat (length pl)) n
  | None => false
  end.

(** How the [for link in links] loop is left. *)
Inductive for_exit : Type :=
| Return (pl : list value)
| Exhausted (pl : list value)
| Throw (e : exn).

(** [for link in links: if link["ns"] == 0: pl.append(link["title"]);
    if len(pl) == num_links: return pl]. *)
Fixpoint for_links (num_links : option Z) (links : list value) (pl : list value)
  : for_exit :=
  match links with
  | [] => Exhausted pl
  | link :: links' =>
      match getitem link "ns" with
      | Raise e => Throw e
      | Ok ns =>
          if eq_int ns 0 then
            match getitem link "title" with
            | Raise e => Throw e
            | Ok title =>
                let pl' := pl ++ [title] in
                if len_is pl' num_links then Return pl'
                else for_links num_links links' pl'
            end
          else for_links num_links links' pl
      end
  end.

(** [json_data["query"]["pages"].popitem()[1]]. *)
Definition popped_page (json_data : value) : res value :=
  query <- getitem json_data "query" ;;
  pages <- getitem query "pages" ;;
  popitem_value pages.

(** [json_data["continue"]["plcontinue"]]. *)
Definition next_cursor (json_data : value) : res value :=
  cont <- getitem json_data "continue" ;;
  getitem cont "plcontinue".

(** The [while True] loop, one turn per response. *)
Fixpoint get_links_loop (responses : list value) (page_name : string)
  (num_links : option Z) (pllimit : Z) (pl : list value) (plcontinue : value)
  {struct responses} : run (list value) :=
  emit (Get WIKIURL (links_params page_name pllimit plcontinue))
    match responses with
    | [] => done Awaiting
    | json_data :: later =>
        match popped_page json_data with
        | Raise e => done (Raised e)
        | Ok page =>
            match getitem page "links" with
            | Raise KeyError =>
                emit (Log ERROR "Unable to get links for page %s" [VStr page_name])
                  (done (Returned pl))
            | Raise e => done (Raised e)
            | Ok links =>
                match iterate links with
                | Raise e => done (Raised e)
                | Ok items =>
                    match for_links num_links items pl with
                    | Throw e => done (Raised e)
                    | Return pl' => done (Returned pl')
                    | Exhausted pl' =>
                        match next_cursor json_data with
                        | Ok cursor =>
                            emit (Log INFO "%s plcontinue: %s" [VStr page_name; cursor])
                              (get_links_loop later page_name num_links pllimit
                                 pl' cursor)
                        | Raise KeyError =>
                            emit (Log INFO "%s has fewer links than %i"
                                    [VStr page_name; of_num_links num_links])
                              (done (Returned pl'))
                        | Raise e => done (Raised e)
                        end
                    end
                end
            end
        end
    end.

(** [get_links(page_name, num_links)]. *)
Definition get_links (responses : list value) (page_name : string)
  (num_links : option Z) : run (list value) :=
  get_links_loop responses page_name num_links (page_size num_links) [] VNone.

(* ===================================================================== *)
(** ** Shapes of responses *)
(* ===================================================================== *)

(** The response reports zero total hits. *)
Definition no_hits (json_data : value) : Prop :=
  exists totalhits,
    searchinfo json_data "totalhits" = Ok totalhits /\ eq_int totalhits 0 = true.

(** The response reports a nonzero number of hits. *)
Definition has_hits (json_data : value) : Prop :=
  exists totalhits,
    searchinfo json_data "totalhits" = Ok totalhits /\ eq_int totalhits 0 = false.

(** The response carries the suggestion string [new_guess]. *)
Definition suggests (json_data : value) (new_guess : string) : Prop :=
  searchinfo json_data "suggestion" = Ok (VStr new_guess).

(** The response has no suggestion field. *)
Definition no_suggestion (json_data : value) : Prop :=
  searchinfo json_data "suggestion" = Raise KeyError.

(** A zero-hit response with a suggestion field: the one that makes
    [search_title] call itself. *)
Definition retries (json_data : value) : bool :=
  match searchinfo json_data "totalhits", searchinfo json_data "suggestion" with
  | Ok totalhits, Ok _ => eq_int totalhits 0
  | _, _ => false
  end.

(** [page'] is the hit [page] with its snippet passed through [cleanhtml]
    and every other field as it was. *)
Definition cleaned (page page' : value) : Prop :=
  exists d raw,
    page = VDict d /\
    dict_get "snippet" d = Some (VStr raw) /\
    page' = VDict (dict_set "snippet" (VStr (cleanhtml raw)) d).

(* ===================================================================== *)
(** ** Sample responses *)
(* ===================================================================== *)

(** The answer to the misspelt query of the script's entry point: no hit,
    and a suggestion. *)
Definition resp_muskk : value :=
  VDict [("batchcomplete", VStr "");
         ("query",
          VDict [("searchinfo",
                  VDict [("totalhits", VInt 0); ("suggestion", VStr "elon musk");
                         ("suggestionsnippet", VStr "elon musk")]);
                 ("search", VList [])])].

Definition hit_musk : value :=
  VDict [("ns", VInt 0); ("title", VStr "Elon Musk"); ("pageid", VInt 909036);
         ("snippet",
          VStr "<span class=searchmatch>Elon</span> Reeve <span class=searchmatch>Musk</span> is a businessman")].

Definition hit_views : value :=
  VDict [("ns", VInt 0); ("title", VStr "Views of Elon Musk");
         ("snippet", VStr "The views of <span class=searchmatch>Elon</span> <span class=searchmatch>Musk</span>")].

(** An answer with two hits. *)
Definition resp_musk : value :=
  VDict [("batchcomplete", VStr "");
         ("query",
          VDict [("searchinfo", VDict [("totalhits", VInt 2)]);
                 ("search", VList [hit_musk; hit_views])])].

(** No hit and no suggestion. *)
Definition resp_nothing : value :=
  VDict [("query",
          VDict [("searchinfo", VDict [("totalhits", VInt 0)]);
                 ("search", VList [])])].

(** An error body: no [query] field at all. *)
Definition resp_error : value :=
  VDict [("error",
          VDict [("code", VStr "ratelimited");
                 ("info", VStr "You have exceeded your rate limit.")])].

(** A positive hit count next to an empty hit list. *)
Definition resp_count_only : value :=
  VDict [("query",
          VDict [("searchinfo", VDict [("totalhits", VInt 1)]);
                 ("search", VList [])])].

(** The first page of the links of an article: three links, one of them
    outside the article namespace, and a continuation cursor. *)
Definition resp_links_first : value :=
  VDict [("continue",
          VDict [("plcontinue", VStr "909036|0|PayPal"); ("continue", VStr "||")]);
         ("query",
          VDict [("pages",
                  VDict [("909036",
                          VDict [("pageid", VInt 909036); ("ns", VInt 0);
                                 ("title", VStr "Elon Musk");
                                 ("links",
                                  VList [VDict [("ns", VInt 0); ("title", VStr "Boring Company")];
                                         VDict [("ns", VInt 14); ("title", VStr "Category:Living people")];
                                         VDict [("ns", VInt 0); ("title", VStr "Neuralink")]])])])])].

(** The last page: two more article links and no cursor. *)
Definition resp_links_last : value :=
  VDict [("batchcomplete", VStr "");
         ("query",
          VDict [("pages",
                  VDict [("909036",
                          VDict [("pageid", VInt 909036); ("ns", VInt 0);
                                 ("title", VStr "Elon Musk");
                                 ("links",
                                  VList [VDict [("ns", VInt 0); ("title", VStr "PayPal")];
                                         VDict [("ns", VInt 0); ("title", VStr "SpaceX")]])])])])].

(** The answer for a title that names no page: an entry without links. *)
Definition resp_links_missing : value :=
  VDict [("batchcomplete", VStr "");
         ("query",
          VDict [("pages",
                  VDict [("-1",
                          VDict [("ns", VInt 0); ("title", VStr "Elon Muskk");
                                 ("missing", VStr "")])])])].

(* ===================================================================== *)
(** ** Links of a response *)
(* ===================================================================== *)

(** The entries [for link in links] visits on a response that has them. *)
Definition link_items (json_data : value) : res (list value) :=
  page <- popped_page json_data ;;
  links <- getitem page "links" ;;
  iterate links.

(** [title] is the title of the article link [link]: its [ns] equals 0. *)
Definition is_article (link title : value) : Prop :=
  exists ns,
    getitem link "ns" = Ok ns /\ eq_int ns 0 = true /\
    getitem link "title" = Ok title.

(** The link stays when links of other namespaces are taken out. *)
Definition in_article_namespace (link : value) : bool :=
  match getitem link "ns" with
  | Ok ns => eq_int ns 0
  | Raise _ => true
  end.

(** The titles of the article links among [items], in order. *)
Fixpoint article_titles (items : list value) : list value :=
  match items with
  | [] => []
  | link :: items' =>
      match getitem link "ns" with
      | Ok ns =>
          if eq_int ns 0 then
            match getitem link "title" with
            | Ok title => title :: article_titles items'
            | Raise _ => article_titles items'
            end
          else article_titles items'
      | Raise _ => article_titles items'
      end
  end.

(** The titles of the article links of a response. *)
Definition articles_of (json_data : value) : list value :=
  match link_items json_data with
  | Ok items => article_titles items
  | Raise _ => []
  end.

(** The page entry of the response is a dictionary without [links]. *)
Definition lacks_links (json_data : value) : Prop :=
  exists page d,
    popped_page json_data = Ok page /\ page = VDict d /\
    dict_get "links" d = None.

(** A link entry the loop can process: it has [ns], and a [title] when
    it is an article link. *)
Definition link_ok (link : value) : Prop :=
  exists ns,
    getitem link "ns" = Ok ns /\
    (eq_int ns 0 = true -> exists title, getitem link "title" = Ok title).

(** A response whose page entry lists links the loop can process. *)
Definition page_ok (json_data : value) : Prop :=
  exists items, link_items json_data = Ok items /\ Forall link_ok items.

(** The pages of a paginated answer: each but the last hands out the
    cursor of the next. *)
Inductive paginated : list value -> Prop :=
| paginated_last json_data :
    page_ok json_data -> paginated [json_data]
| paginated_more json_data cursor later :
    page_ok json_data -> next_cursor json_data = Ok cursor ->
    paginated later -> paginated (json_data :: later).

(** The requests of a trace. *)
Definition is_get (e : event) : bool :=
  match e with
  | Get _ _ => true
  | Log _ _ _ => false
  end.

Definition requests (t : list event) : list event := filter is_get t.

(** The page size a request carries. *)
Definition pllimit_of (e : event) : res value :=
  match e with
  | Get _ params => getitem params "pllimit"
  | Log _ _ _ => Raise KeyError
  end.

(* ===================================================================== *)
(** ** What the specification calls a tag *)
(* ===================================================================== *)

(** The inside of a tag: no closing bracket (the match is the shortest
    one) and no line break ([.] does not match one). *)
Definition tag_body (b : list ascii) : Prop :=
  ~ In ">"%char b /\ ~ In Re.newline b.

(** A tag: ['<'], a body, the next ['>']. *)
Definition is_tag (m : list ascii) : Prop :=
  exists b, m = "<"%char :: b ++ [">"%char] /\ tag_body b.

(** A tag starts at the head of [s]. *)
Definition tag_starts (s : list ascii) : Prop :=
  exists m rest, s = m ++ rest /\ is_tag m.

(** [tags_removed s out]: reading [s] from the left, every tag that starts
    where the reading stands is dropped, every other character is kept. *)
Inductive tags_removed : list ascii -> list ascii -> Prop :=
| tags_removed_nil : tags_removed [] []
| tags_removed_tag m rest out :
    is_tag m -> tags_removed rest out -> tags_removed (m ++ rest) out
| tags_removed_keep c s out :
    ~ tag_starts (c :: s) -> tags_removed s out ->
    tags_removed (c :: s) (c :: out).

(** The search for the closing bracket that the matcher performs behind an
    opening one, written as a scan (used to reason about [match_here]). *)
Fixpoint close_tag (s : list ascii) : option (list ascii) :=
  match s with
  | [] => None
  | c :: s' =>
      if Ascii.eqb c ">" then Some s'
      else if Ascii.eqb c Re.newline then None
      else close_tag s'
  end.

(* ===================================================================== *)
(** ** Well-formed answers *)
(* ===================================================================== *)

(** A hit the loop of [search_title] can clean: a dictionary with a string
    snippet. *)
Definition hit_ok (page : value) : Prop :=
  exists d raw, page = VDict d /\ dict_get "snippet" d = Some (VStr raw).

(** A search answer of the documented shape: a hit count; with no hit, no
    suggestion or a suggestion string; with hits, a list of cleanable
    hits. *)
Definition search_ok (json_data : value) : Prop :=
  (no_hits json_data /\
   (no_suggestion json_data \/ exists new_guess, suggests json_data new_guess)) \/
  (has_hits json_data /\
   exists pages, hit_list json_data = Ok pages /\ Forall hit_ok pages).

(** The response says where to go on, or says nothing about it. *)
Definition cursor_ok (json_data : value) : Prop :=
  (exists cursor, next_cursor json_data = Ok cursor) \/
  next_cursor json_data = Raise KeyError.

(** A links answer of the documented shape. *)
Definition links_ok (json_data : value) : Prop :=
  lacks_links json_data \/ (page_ok json_data /\ cursor_ok json_data).

(** A page of links that is followed by another one. *)
Definition continued (json_data : value) : Prop :=
  page_ok json_data /\ exists cursor, next_cursor json_data = Ok cursor.

(** The cursor in hand after the pages [pages], starting from
    [plcontinue]. *)
Fixpoint last_cursor (plcontinue : value) (pages : list value) : value :=
  match pages with
  | [] => plcontinue
  | json_data :: later =>
      match next_cursor json_data with
      | Ok cursor => last_cursor cursor later
      | Raise _ => last_cursor plcontinue later
      end
  end.

(** The requested count is not among the lengths [lo + 1 .. hi] the
    accumulator goes through: the early return does not fire. *)
Definition unmet (num_links : option Z) (lo hi : nat) : Prop :=
  match num_links with
  | None => True
  | Some n => (n <= Z.of_nat lo \/ Z.of_nat hi < n)%Z
  end.

(** The limit a search request carries. *)
Definition srlimit_of (e : event) : res value :=
  match e with
  | Get _ params => getitem params "srlimit"
  | Log _ _ _ => Raise KeyError
  end.

(** The cursor a links request carries. *)
Definition plcontinue_of (e : event) : res value :=
  match e with
  | Get _ params => getitem params "plcontinue"
  | Log _ _ _ => Raise KeyError
  end.

(* ===================================================================== *)
(** ** The entry point *)
(* ===================================================================== *)

Definition title_query : string := "elon muskk".

Definition line_feed : string := String Re.newline EmptyString.

(** [msg.format(title)] for the [msg] of the entry point. *)
Definition msg_format (title : string) : string :=
  ("The page " ++ title ++ " does not exist." ++ line_feed ++ line_feed
   ++ "There were no results matching the query")%string.

(** The block run as [__main__]: how it ends, the trace of its call to
    [search_title], and the arguments of its [print] calls, in order. *)
Definition main (responses : list value) : run unit * list value :=
  let (o, t) := search_title responses title_query default_srlimit in
  match o with
  | Returned None => ((Returned tt, t), [VStr (msg_format title_query)])
  | Returned (Some SUGGESTIONS) =>
      ((Returned tt, t),
       VStr "render page with suggestions as buttons" :: SUGGESTIONS)
  | Raised e => ((Raised e, t), [])
  | Awaiting => ((Awaiting, t), [])
  end.

(* ===================================================================== *)
(** ** The matcher on [cleanr] *)
(* ===================================================================== *)

Module ReFacts.
Import Re.

Lemma sub_unfold (re : regex) (repl s : list ascii) :
  sub re repl s =
  match s with
  | [] => match match_here re [] with Some _ => repl | None => [] end
  | c :: s' =>
      match match_here re s with
      | None => c :: sub re repl s'
      | Some rest =>
          if length rest <? length s then repl ++ sub re repl rest
          else repl ++ c :: sub re repl s'
      end
  end.
Proof.
  funelim (sub re repl s).
  all: try (match goal with H : match_here _ _ = _ |- _ => rewrite H end).
  all: try (match goal with H : (_ <? _) = _ |- _ => rewrite H end).
  all: reflexivity.
Qed.

Lemma match_here_length (re : regex) :
  forall s rest, match_here re s = Some rest -> length rest <= length s.
Proof.
  induction re as [|p re IH]; intros s rest H.
  - cbn in H. injection H as <-. lia.
  - destruct p as [a|a].
    + destruct s as [|c s]; cbn in H; [discriminate|].
      destruct (atom_matches a c); [|discriminate].
      apply IH in H. cbn. lia.
    + induction s as [|c s IHs].
      * cbn in H. destruct (match_here re []) eqn:E; [|discriminate].
        injection H as <-. now apply IH in E.
      * cbn in H. destruct (match_here re (c :: s)) eqn:E.
        -- injection H as <-. now apply IH in E.
        -- destruct (atom_matches a c); [|discriminate].
           apply IHs in H. cbn. lia.
Qed.

Lemma match_here_cleanr_nil : match_here cleanr [] = None.
Proof. reflexivity. Qed.

Lemma lazy_dot_close (s : list ascii) :
  match_here [LazyStar Dot; One (Lit ">")] s = close_tag s.
Proof.
  induction s as [|c s IH]; [reflexivity|].
  cbn in *. destruct (Ascii.eqb c ">"); [reflexivity|].
  unfold newline. destruct (Ascii.eqb c "010"); cbn; [reflexivity|exact IH].
Qed.

Lemma match_here_cleanr (c : ascii) (s : list ascii) :
  match_here cleanr (c :: s) = if Ascii.eqb c "<" then close_tag s else None.
Proof.
  unfold cleanr. cbn [match_here atom_matches].
  destruct (Ascii.eqb c "<"); [|reflexivity].
  apply (lazy_dot_close s).
Qed.

Lemma close_tag_intro (b rest : list ascii) :
  tag_body b -> close_tag (b ++ ">"%char :: rest) = Some rest.
Proof.
  induction b as [|c b IH]; intros [Hgt Hnl]; cbn.
  - reflexivity.
  - destruct (Ascii.eqb_spec c ">") as [->|_]; [exfalso; apply Hgt; now left|].
    destruct (Ascii.eqb_spec c newline) as [->|_]; [exfalso; apply Hnl; now left|].
    apply IH. split; intros Hin; [apply Hgt|apply Hnl]; now right.
Qed.

Lemma close_tag_elim (s rest : list ascii) :
  close_tag s = Some rest ->
  exists b, s = b ++ ">"%char :: rest /\ tag_body b.
Proof.
  revert rest. induction s as [|c s IH]; intros rest H; cbn in H; [discriminate|].
  destruct (Ascii.eqb_spec c ">") as [->|Hgt].
  - injection H as <-. exists []. split; [reflexivity|]. split; intros [].
  - destruct (Ascii.eqb_spec c newline) as [->|Hnl]; [discriminate|].
    destruct (IH _ H) as (b & -> & Hb1 & Hb2).
    exists (c :: b). split; [reflexivity|].
    split; intros [E|Hin]; auto.
Qed.

(** The matcher finds a match at the head of [s] exactly when a tag
    starts there, and what it leaves is what follows that tag. *)
Lemma match_here_tag (s rest : list ascii) :
  match_here cleanr s = Some rest <->
  exists m, s = m ++ rest /\ is_tag m.
Proof.
  split.
  - destruct s as [|c s]; [discriminate|].
    rewrite match_here_cleanr.
    destruct (Ascii.eqb_spec c "<") as [->|_]; [|discriminate].
    intros H. apply close_tag_elim in H as (b & -> & Hb).
    exists ("<"%char :: b ++ [">"%char]). split.
    + cbn. now rewrite <- app_assoc.
    + now exists b.
  - intros (m & -> & b & -> & Hb).
    cbn [app]. rewrite match_here_cleanr. cbn.
    rewrite <- app_assoc. cbn. now apply close_tag_intro.
Qed.

Lemma match_here_no_tag (s : list ascii) :
  match_here cleanr s = None <-> ~ tag_starts s.
Proof.
  split.
  - intros H (m & rest & Hs & Hm).
    assert (match_here cleanr s = Some rest) as E
      by (apply match_here_tag; eauto).
    congruence.
  - intros H. destruct (match_here cleanr s) as [rest|] eqn:E; [|reflexivity].
    exfalso. apply H. apply match_here_tag in E as (m & -> & Hm).
    now exists m, rest.
Qed.

Lemma lang_cleanr (m : list ascii) :
  lang cleanr m <->
  exists b, m = "<"%char :: b ++ [">"%char] /\ ~ In newline b.
Proof.
  unfold cleanr. cbn [lang atom_matches]. split.
  - intros (c & m1 & -> & Hc & b & m2 & -> & Hb & c' & m3 & -> & Hc' & ->).
    apply Ascii.eqb_eq in Hc, Hc'. subst. exists b. split; [reflexivity|].
    intros Hin. rewrite Forall_forall in Hb. apply Hb in Hin.
    now rewrite Ascii.eqb_refl in Hin.
  - intros (b & -> & Hb). exists "<"%char, (b ++ [">"%char]).
    repeat split. exists b, [">"%char]. repeat split.
    + apply Forall_forall. intros c Hin.
      destruct (Ascii.eqb_spec c newline) as [->|_]; [contradiction|reflexivity].
    + now exists ">"%char, [].
Qed.

Lemma first_closing (x : ascii) (b b' q : list ascii) :
  ~ In x b -> b ++ [x] = b' ++ x :: q -> q = [].
Proof.
  revert b'. induction b as [|c b IH]; intros b' Hx E.
  - destruct b' as [|c' b']; cbn in E.
    + now injection E.
    + injection E as _ E. now destruct b'.
  - destruct b' as [|c' b']; cbn in E; injection E as -> E.
    + exfalso. apply Hx. now left.
    + apply (IH b'); [|exact E]. intros Hin. apply Hx. now right.
Qed.

(** A tag is a word of the pattern none of whose proper prefixes is one:
    the shortest match. *)
Lemma is_tag_shortest_word (m : list ascii) :
  is_tag m <->
  lang cleanr m /\ (forall p q, m = p ++ q -> lang cleanr p -> q = []).
Proof.
  split.
  - intros (b & -> & Hgt & Hnl). split.
    + apply lang_cleanr. now exists b.
    + intros p q E Hp. apply lang_cleanr in Hp as (b' & -> & _).
      cbn in E. injection E as E. rewrite <- app_assoc in E. cbn in E.
      now apply (first_closing _ _ _ _ Hgt E).
  - intros [Hm Hmin]. apply lang_cleanr in Hm as (b & -> & Hnl).
    exists b. split; [reflexivity|]. split; [|exact Hnl].
    intros Hin. apply in_split in Hin as (b1 & b2 & ->).
    assert (b2 ++ [">"%char] = []) as E.
    { apply (Hmin ("<"%char :: b1 ++ [">"%char])).
      - cbn. now rewrite <- !app_assoc.
      - apply lang_cleanr. exists b1. split; [reflexivity|].
        intros Hin. apply Hnl. apply in_or_app. now left. }
    now destruct b2.
Qed.

End ReFacts.

(* ===================================================================== *)
(** ** [cleanhtml] removes the tags and nothing else *)
(* ===================================================================== *)

Section Cleanhtml.
Import Re ReFacts.

Lemma tag_length (m : list ascii) : is_tag m -> 2 <= length m.
Proof. intros (b & -> & _). cbn. rewrite length_app. cbn. lia. Qed.

Lemma sub_at_tag (m rest : list ascii) :
  is_tag m -> sub cleanr [] (m ++ rest) = sub cleanr [] rest.
Proof.
  intros Hm. rewrite sub_unfold.
  assert (match_here cleanr (m ++ rest) = Some rest) as E
    by (apply match_here_tag; eauto).
  pose proof (tag_length _ Hm) as Hlen.
  destruct (m ++ rest) as [|c s] eqn:Es.
  - apply (f_equal (@length ascii)) in Es. rewrite length_app in Es. cbn in Es. lia.
  - rewrite E.
    assert ((length rest <? length (c :: s)) = true) as ->; [|reflexivity].
    apply Nat.ltb_lt. rewrite <- Es, length_app. lia.
Qed.

Lemma sub_at_text (c : ascii) (s : list ascii) :
  ~ tag_starts (c :: s) -> sub cleanr [] (c :: s) = c :: sub cleanr [] s.
Proof.
  intros H. rewrite sub_unfold.
  apply match_here_no_tag in H. now rewrite H.
Qed.

Lemma sub_tags_removed (s : list ascii) : tags_removed s (sub cleanr [] s).
Proof.
  remember (length s) as n eqn:Hn.
  revert s Hn. induction n as [n IH] using lt_wf_ind. intros s ->.
  destruct s as [|c s].
  - rewrite sub_unfold, match_here_cleanr_nil. constructor.
  - destruct (match_here cleanr (c :: s)) as [rest|] eqn:E.
    + apply match_here_tag in E as (m & Es & Hm).
      rewrite Es, (sub_at_tag _ rest Hm).
      apply tags_removed_tag; [exact Hm|].
      apply (IH (length rest)); [|reflexivity].
      pose proof (tag_length _ Hm). rewrite Es, length_app. lia.
    + apply match_here_no_tag in E.
      rewrite (sub_at_text _ _ E). apply tags_removed_keep; [exact E|].
      apply (IH (length s)); [cbn; lia|reflexivity].
Qed.

Lemma tags_removed_fun (s out : list ascii) :
  tags_removed s out -> out = sub cleanr [] s.
Proof.
  induction 1 as [|m rest out Hm _ IH|c s out Hc _ IH].
  - now rewrite sub_unfold, match_here_cleanr_nil.
  - now rewrite (sub_at_tag _ rest Hm).
  - rewrite (sub_at_text _ _ Hc). now f_equal.
Qed.

Lemma sub_without_tag (s : list ascii) :
  (forall pre suf, s = pre ++ suf -> ~ tag_starts suf) ->
  sub cleanr [] s = s.
Proof.
  induction s as [|c s IH]; intros H.
  - now rewrite sub_unfold, match_here_cleanr_nil.
  - rewrite sub_at_text by (apply (H []); reflexivity).
    f_equal. apply IH. intros pre suf ->. apply (H (c :: pre)). reflexivity.
Qed.

Lemma chars_str_of (l : list ascii) : chars (str_of l) = l.
Proof. apply list_ascii_of_string_of_list_ascii. Qed.

Lemma str_of_chars (s : string) : str_of (chars s) = s.
Proof. apply string_of_list_ascii_of_string. Qed.

(** C4. For every input string, [cleanhtml] removes exactly the
    substrings that match the non-greedy pattern [<.*?>] (from a ['<'] to
    the next ['>'], with no line break in between since [.] matches none)
    and keeps every other character, in order: the output is related to
    the input by [tags_removed], and it is the only string that is; an
    input in which no tag starts anywhere comes back unchanged.  The
    function is total and has no failure mode ([cleanhtml] is a function
    into [string]). *)
Theorem cleanhtml_removes_exactly_the_tags (raw_html : string) :
  tags_removed (chars raw_html) (chars (cleanhtml raw_html)) /\
  (forall out, tags_removed (chars raw_html) out ->
               out = chars (cleanhtml raw_html)) /\
  ((forall pre suf, chars raw_html = pre ++ suf -> ~ tag_starts suf) ->
   cleanhtml raw_html = raw_html).
Proof.
  unfold cleanhtml. rewrite chars_str_of. split; [|split].
  - apply sub_tags_removed.
  - apply tags_removed_fun.
  - intros H. rewrite (sub_without_tag _ H). apply str_of_chars.
Qed.

Example cleanhtml_markup :
  cleanhtml "<span class=searchmatch>Elon</span> <b>Musk</b>" = "Elon Musk".
Proof. reflexivity. Qed.

Example cleanhtml_unclosed : cleanhtml "1 < 2" = "1 < 2".
Proof. reflexivity. Qed.

Example cleanhtml_nested : cleanhtml "a<<b>c>d" = "ac>d".
Proof. reflexivity. Qed.

(** No match spans a line break. *)
Example cleanhtml_line_break :
  let raw := str_of ["<"; "a"; newline; "b"; ">"]%char in cleanhtml raw = raw.
Proof. reflexivity. Qed.

Lemma cleanhtml_removes_exactly_the_tags_witness :
  (forall pre suf, chars "1 < 2" = pre ++ suf -> ~ tag_starts suf) /\
  cleanhtml "1 < 2" = "1 < 2".
Proof.
  assert (forall pre suf, chars "1 < 2" = pre ++ suf -> ~ tag_starts suf) as H.
  { intros pre suf E. apply match_here_no_tag.
    do 5 (destruct pre as [|? pre]; [cbn in E; subst suf; reflexivity|];
          cbn in E; injection E as _ E).
    destruct pre; [cbn in E; subst suf; reflexivity|discriminate E]. }
  split; [exact H|].
  exact (proj2 (proj2 (cleanhtml_removes_exactly_the_tags "1 < 2")) H).
Defined.

End Cleanhtml.

(* ===================================================================== *)
(** ** [search_title] *)
(* ===================================================================== *)

Section SearchTitle.

Lemma search_title_cons (json_data : value) (later : list value)
  (title_guess : string) (srlimit : Z) :
  search_title (json_data :: later) title_guess srlimit =
  emit (Get WIKIURL (search_params title_guess srlimit))
    match searchinfo json_data "totalhits" with
    | Raise e => done (Raised e)
    | Ok totalhits =>
        if eq_int totalhits 0 then
          match searchinfo json_data "suggestion" with
          | Raise KeyError => done (Returned None)
          | Raise e => done (Raised e)
          | Ok (VStr new_guess) =>
              except_KeyError (search_title later new_guess default_srlimit)
          | Ok _ => done (Raised AttributeError)
          end
        else
          match collect_hits json_data with
          | Ok suggestions => done (Returned (Some suggestions))
          | Raise e => done (Raised e)
          end
    end.
Proof. reflexivity. Qed.

Lemma search_title_first_request (responses : list value) (title_guess : string)
  (srlimit : Z) :
  hd_error (snd (search_title responses title_guess srlimit)) =
  Some (Get WIKIURL (search_params title_guess srlimit)).
Proof. destruct responses; reflexivity. Qed.

Lemma except_KeyError_returned (r : run (option (list value)))
  (suggestions : option (list value)) :
  fst r = Returned suggestions -> except_KeyError r = r.
Proof. unfold except_KeyError. intros ->. reflexivity. Qed.

Lemma except_KeyError_other (r : run (option (list value))) :
  fst r <> Raised KeyError -> fst (except_KeyError r) = fst r.
Proof. unfold except_KeyError. destruct r as [[a|[]|] t]; cbn; congruence. Qed.

Lemma except_KeyError_caught (r : run (option (list value))) :
  fst r = Raised KeyError -> except_KeyError r = (Returned None, snd r).
Proof. unfold except_KeyError. now intros ->. Qed.

Lemma search_title_retry (json_data : value) (later : list value)
  (title_guess new_guess : string) (srlimit : Z) :
  no_hits json_data -> suggests json_data new_guess ->
  search_title (json_data :: later) title_guess srlimit =
  emit (Get WIKIURL (search_params title_guess srlimit))
    (except_KeyError (search_title later new_guess default_srlimit)).
Proof.
  intros (totalhits & Hth & Hz) Hs. red in Hs.
  rewrite search_title_cons, Hth, Hz, Hs. reflexivity.
Qed.

(** The retry.  When the response reports zero total hits and carries a
    suggestion string, [search_title] calls itself on the suggestion with
    the default limit 5, whatever the caller's [srlimit] was: what that
    call returns (a sequence or [None]) is handed back as it is, and the
    call ends as that call ends unless a [KeyError] escapes from it, which
    the enclosing [try] turns into [None] ([later] being what the API
    answers from the retried request on). *)
Theorem search_title_follows_suggestion (json_data : value) (later : list value)
  (title_guess new_guess : string) (srlimit : Z) :
  no_hits json_data -> suggests json_data new_guess ->
  let direct := search_title later new_guess default_srlimit in
  search_title (json_data :: later) title_guess srlimit =
    emit (Get WIKIURL (search_params title_guess srlimit)) (except_KeyError direct) /\
  (forall suggestions,
      fst direct = Returned suggestions ->
      fst (search_title (json_data :: later) title_guess srlimit)
      = Returned suggestions) /\
  (fst direct <> Raised KeyError ->
   fst (search_title (json_data :: later) title_guess srlimit) = fst direct) /\
  hd_error (snd direct) = Some (Get WIKIURL (search_params new_guess 5)).
Proof.
  intros Hno Hs direct.
  pose proof (search_title_retry json_data later title_guess new_guess srlimit Hno Hs) as E.
  fold direct in E. split; [exact E|]. split; [|split].
  - intros suggestions Hd. rewrite E.
    now rewrite (except_KeyError_returned direct suggestions Hd).
  - intros Hd. rewrite E. cbn [emit fst]. now apply except_KeyError_other.
  - apply search_title_first_request.
Qed.

Lemma search_title_follows_suggestion_witness :
  no_hits resp_muskk /\ suggests resp_muskk "elon musk" /\
  fst (search_title [resp_muskk; resp_musk] "elon muskk" 3)
  = fst (search_title [resp_musk] "elon musk" 5).
Proof.
  assert (no_hits resp_muskk) as Hno by (exists (VInt 0); split; reflexivity).
  assert (suggests resp_muskk "elon musk") as Hs by reflexivity.
  split; [exact Hno|]. split; [exact Hs|].
  apply (proj1 (proj2 (search_title_follows_suggestion
                         resp_muskk [resp_musk] "elon muskk" "elon musk" 3 Hno Hs))).
  vm_compute. reflexivity.
Defined.

(** *** The hits of a response *)

Lemma clean_page_cleaned (page page' : value) :
  clean_page page = Ok page' <-> cleaned page page'.
Proof.
  unfold clean_page, cleaned, getitem. split.
  - destruct page as [| | | | |d]; cbn; try discriminate.
    destruct (dict_get "snippet" d) as [[| | |raw| |]|] eqn:E; cbn; try discriminate.
    intros [= <-]. now exists d, raw.
  - intros (d & raw & -> & E & ->). cbn. now rewrite E.
Qed.

Lemma clean_pages_spec (pages : list value) :
  forall acc out,
    clean_pages pages acc = Ok out <->
    exists cl, Forall2 cleaned pages cl /\ out = acc ++ cl.
Proof.
  induction pages as [|page pages IH]; intros acc out; cbn.
  - split.
    + intros [= <-]. exists []. split; [constructor|now rewrite app_nil_r].
    + intros (cl & H & ->). inversion H. now rewrite app_nil_r.
  - split.
    + destruct (clean_page page) as [page'|e] eqn:E; cbn; [|discriminate].
      intros H. apply IH in H as (cl & Hcl & ->).
      exists (page' :: cl). split.
      * constructor; [now apply clean_page_cleaned|exact Hcl].
      * now rewrite <- app_assoc.
    + intros (cl & H & ->). inversion H as [|? page' ? cl' Hp Hcl]; subst.
      apply clean_page_cleaned in Hp. rewrite Hp. cbn.
      apply IH. exists cl'. split; [exact Hcl|now rewrite <- app_assoc].
Qed.

Lemma collect_hits_spec (json_data : value) (pages suggestions : list value) :
  hit_list json_data = Ok pages ->
  collect_hits json_data = Ok suggestions <-> Forall2 cleaned pages suggestions.
Proof.
  intros H. unfold collect_hits. rewrite H. cbn.
  rewrite clean_pages_spec. split.
  - now intros (cl & Hcl & ->).
  - intros Hcl. now exists suggestions.
Qed.

Lemma collect_hits_elim (json_data : value) (suggestions : list value) :
  collect_hits json_data = Ok suggestions ->
  exists pages, hit_list json_data = Ok pages /\ Forall2 cleaned pages suggestions.
Proof.
  intros H. unfold collect_hits in H.
  destruct (hit_list json_data) as [pages|e] eqn:E; [|discriminate].
  exists pages. split; [reflexivity|]. cbn in H.
  now apply clean_pages_spec in H as (cl & Hcl & ->).
Qed.

Lemma search_title_hits (json_data : value) (later : list value)
  (title_guess : string) (srlimit : Z) :
  has_hits json_data ->
  search_title (json_data :: later) title_guess srlimit =
  emit (Get WIKIURL (search_params title_guess srlimit))
    match collect_hits json_data with
    | Ok suggestions => done (Returned (Some suggestions))
    | Raise e => done (Raised e)
    end.
Proof.
  intros (totalhits & Hth & Hz). now rewrite search_title_cons, Hth, Hz.
Qed.

Lemma dict_get_set_same (k : string) (v : value) (d : list (string * value)) :
  dict_get k (dict_set k v d) = Some v.
Proof.
  induction d as [|[k' v'] d IH]; cbn.
  - now rewrite String.eqb_refl.
  - destruct (String.eqb k k') eqn:E; cbn; rewrite E; [reflexivity|exact IH].
Qed.

Lemma dict_get_set_other (k k' : string) (v : value) (d : list (string * value)) :
  k' <> k -> dict_get k' (dict_set k v d) = dict_get k' d.
Proof.
  intros Hk. induction d as [|[k0 v0] d IH]; cbn.
  - apply String.eqb_neq in Hk. now rewrite Hk.
  - destruct (String.eqb_spec k k0) as [->|Hk0]; cbn.
    + apply String.eqb_neq in Hk. now rewrite Hk.
    + now rewrite IH.
Qed.

(** What [cleaned] says field by field. *)
Lemma cleaned_fields (page page' : value) :
  cleaned page page' ->
  (exists raw, getitem page "snippet" = Ok (VStr raw) /\
               getitem page' "snippet" = Ok (VStr (cleanhtml raw))) /\
  (forall k, k <> "snippet" -> getitem page' k = getitem page k).
Proof.
  intros (d & raw & -> & E & ->). split.
  - exists raw. cbn. now rewrite E, dict_get_set_same.
  - intros k Hk. cbn. now rewrite dict_get_set_other.
Qed.

Lemma Forall2_cleaned_length (pages suggestions : list value) :
  Forall2 cleaned pages suggestions -> length suggestions = length pages.
Proof. intros H. symmetry. exact (Forall2_length H). Qed.

(** C3, as the code has it.  On a response that reports nonzero total
    hits [search_title] returns one result per entry of the response's hit
    list, in the order of that list, each entry being the hit with its
    snippet replaced by [cleanhtml] of the snippet and its other fields
    untouched; it returns such a sequence whenever every hit is a
    dictionary with a string snippet.  The code never truncates: the
    result holds at most [srlimit] entries when the response does. *)
Theorem search_title_returns_cleaned_hits (json_data : value)
  (later pages : list value) (title_guess : string) (srlimit : Z) :
  has_hits json_data -> hit_list json_data = Ok pages ->
  forall suggestions,
    (fst (search_title (json_data :: later) title_guess srlimit)
     = Returned (Some suggestions) <-> Forall2 cleaned pages suggestions) /\
    (Forall2 cleaned pages suggestions ->
     length suggestions = length pages /\
     ((Z.of_nat (length pages) <= srlimit)%Z ->
      (Z.of_nat (length suggestions) <= srlimit)%Z) /\
     forall i page page',
       nth_error pages i = Some page -> nth_error suggestions i = Some page' ->
       (exists raw, getitem page "snippet" = Ok (VStr raw) /\
                    getitem page' "snippet" = Ok (VStr (cleanhtml raw))) /\
       (forall k, k <> "snippet" -> getitem page' k = getitem page k)).
Proof.
  intros Hhits Hpages suggestions. split.
  - rewrite (search_title_hits json_data later title_guess srlimit Hhits).
    rewrite <- (collect_hits_spec json_data pages suggestions Hpages).
    destruct (collect_hits json_data) as [l|e]; cbn; split; congruence.
  - intros Hcl. pose proof (Forall2_cleaned_length _ _ Hcl) as Hlen.
    split; [exact Hlen|]. split; [now rewrite Hlen|].
    intros i page page' Hp Hp'. apply cleaned_fields.
    clear Hlen Hpages. revert i Hp Hp'.
    induction Hcl as [|p p' ps ps' Hpp _ IH]; intros [|i] Hp Hp'; cbn in *;
      try discriminate.
    + now injection Hp as <-; injection Hp' as <-.
    + now apply (IH i).
Qed.

Lemma search_title_returns_cleaned_hits_witness :
  has_hits resp_musk /\ hit_list resp_musk = Ok [hit_musk; hit_views] /\
  exists page', nth_error
                  match fst (search_title [resp_musk] "Elon Musk" 5) with
                  | Returned (Some suggestions) => suggestions
                  | _ => []
                  end 0 = Some page' /\
                getitem page' "snippet" = Ok (VStr "Elon Reeve Musk is a businessman").
Proof.
  assert (has_hits resp_musk) as Hhits by (exists (VInt 2); split; reflexivity).
  assert (hit_list resp_musk = Ok [hit_musk; hit_views]) as Hpages by reflexivity.
  split; [exact Hhits|]. split; [exact Hpages|].
  destruct (fst (search_title [resp_musk] "Elon Musk" 5))
    as [[suggestions|]| |] eqn:E; try (vm_compute in E; discriminate).
  apply (search_title_returns_cleaned_hits
           resp_musk [] _ "Elon Musk" 5 Hhits Hpages) in E.
  inversion E as [|p p' ps ps' Hp _]; subst.
  exists p'. split; [reflexivity|].
  destruct Hp as (d & raw & Hd & Hraw & ->).
  injection Hd as <-. vm_compute in Hraw. injection Hraw as <-.
  vm_compute. reflexivity.
Defined.

(** C3 as it was stated fails: asked for one result, [search_title]
    returns both hits of a response that holds two. *)
Lemma search_title_exceeds_srlimit :
  exists suggestions,
    fst (search_title [resp_musk] "Elon Musk" 1) = Returned (Some suggestions) /\
    (1 < Z.of_nat (length suggestions))%Z.
Proof. eexists. split; [vm_compute; reflexivity|]. cbn. lia. Qed.

(** *** [None], or the hits of a response *)

Lemma search_title_some_elim (responses : list value) :
  forall title_guess srlimit suggestions,
    fst (search_title responses title_guess srlimit) = Returned (Some suggestions) ->
    exists json_data pages,
      In json_data responses /\ has_hits json_data /\
      hit_list json_data = Ok pages /\ Forall2 cleaned pages suggestions.
Proof.
  induction responses as [|json_data later IH]; intros title_guess srlimit suggestions H.
  - discriminate.
  - rewrite search_title_cons in H. cbn [emit fst] in H.
    destruct (searchinfo json_data "totalhits") as [totalhits|e] eqn:Hth;
      [|discriminate].
    destruct (eq_int totalhits 0) eqn:Hz.
    + destruct (searchinfo json_data "suggestion") as [[| | |new_guess| |]|[]];
        try discriminate.
      unfold except_KeyError in H.
      destruct (search_title later new_guess default_srlimit) as [o t] eqn:E.
      cbn in H. assert (o = Returned (Some suggestions)) as ->.
      { destruct o as [a|[]|]; cbn in H; congruence. }
      destruct (IH new_guess default_srlimit suggestions) as (r & pages & Hin & Hr);
        [now rewrite E|].
      exists r, pages. split; [now right|exact Hr].
    + destruct (collect_hits json_data) as [l|e] eqn:Hc; [|discriminate].
      injection H as ->.
      apply collect_hits_elim in Hc as (pages & Hp & Hcl).
      exists json_data, pages. repeat split; [now left| |exact Hp|exact Hcl].
      now exists totalhits.
Qed.

(** C2, as the code has it.  The result of [search_title] is [None] or the
    sequence built from the hit list of a response that reports nonzero
    total hits, one entry per hit: it is empty exactly when that hit list
    is.  A response with zero total hits and no suggestion field gives
    [None] at once; one with zero total hits and a suggestion string is
    answered by the retry. *)
Theorem search_title_none_or_hits (responses : list value)
  (title_guess : string) (srlimit : Z) :
  (forall suggestions,
      fst (search_title responses title_guess srlimit) = Returned (Some suggestions) ->
      exists json_data pages,
        In json_data responses /\ has_hits json_data /\
        hit_list json_data = Ok pages /\
        length suggestions = length pages /\
        (suggestions = [] <-> pages = [])) /\
  (forall json_data later,
      responses = json_data :: later ->
      no_hits json_data -> no_suggestion json_data ->
      search_title responses title_guess srlimit
      = (Returned None, [Get WIKIURL (search_params title_guess srlimit)])) /\
  (forall json_data later new_guess,
      responses = json_data :: later ->
      no_hits json_data -> suggests json_data new_guess ->
      search_title responses title_guess srlimit
      = emit (Get WIKIURL (search_params title_guess srlimit))
          (except_KeyError (search_title later new_guess default_srlimit))).
Proof.
  split; [|split].
  - intros suggestions H.
    apply search_title_some_elim in H as (r & pages & Hin & Hh & Hp & Hcl).
    exists r, pages. pose proof (Forall2_cleaned_length _ _ Hcl) as Hlen.
    repeat split; auto.
    + intros ->. now destruct pages.
    + intros ->. now destruct suggestions.
  - intros json_data later -> (totalhits & Hth & Hz) Hs. red in Hs.
    now rewrite search_title_cons, Hth, Hz, Hs.
  - intros json_data later new_guess -> Hno Hs. now apply search_title_retry.
Qed.

(** C2 as it was stated fails: a response whose hit count is positive and
    whose hit list is empty makes [search_title] return the empty
    sequence. *)
Lemma search_title_returns_empty_sequence :
  fst (search_title [resp_count_only] "penguin" 5) = Returned (Some []).
Proof. reflexivity. Qed.

Lemma search_title_none_or_hits_witness :
  no_hits resp_nothing /\ no_suggestion resp_nothing /\
  search_title [resp_nothing] "qwxzk" 5
  = (Returned None, [Get WIKIURL (search_params "qwxzk" 5)]).
Proof.
  assert (no_hits resp_nothing) as Hno by (exists (VInt 0); split; reflexivity).
  assert (no_suggestion resp_nothing) as Hs by reflexivity.
  split; [exact Hno|]. split; [exact Hs|].
  exact (proj1 (proj2 (search_title_none_or_hits [resp_nothing] "qwxzk" 5))
           resp_nothing [] eq_refl Hno Hs).
Defined.

(** *** Depth of the retry *)

Ltac ends_after_one_request :=
  eexists; (split; [|reflexivity]); discriminate.

(** A response that does not make [search_title] call itself ends the
    call after this one request. *)
Lemma search_title_no_retry (json_data : value) (later : list value)
  (title_guess : string) (srlimit : Z) :
  retries json_data = false ->
  exists o, o <> Awaiting /\
            search_title (json_data :: later) title_guess srlimit
            = (o, [Get WIKIURL (search_params title_guess srlimit)]).
Proof.
  unfold retries. intros H. rewrite search_title_cons.
  destruct (searchinfo json_data "totalhits") as [totalhits|e].
  - destruct (eq_int totalhits 0).
    + destruct (searchinfo json_data "suggestion") as [v|[]]; try discriminate;
        ends_after_one_request.
    + destruct (collect_hits json_data); ends_after_one_request.
  - ends_after_one_request.
Qed.

(** Whatever the response, the call either ends after its one request or
    goes on with the retry. *)
Lemma search_title_step (json_data : value) (later : list value)
  (title_guess : string) (srlimit : Z) :
  (exists o, o <> Awaiting /\
             search_title (json_data :: later) title_guess srlimit
             = (o, [Get WIKIURL (search_params title_guess srlimit)])) \/
  (exists new_guess,
      search_title (json_data :: later) title_guess srlimit
      = emit (Get WIKIURL (search_params title_guess srlimit))
          (except_KeyError (search_title later new_guess default_srlimit))).
Proof.
  rewrite search_title_cons.
  destruct (searchinfo json_data "totalhits") as [totalhits|e].
  - destruct (eq_int totalhits 0).
    + destruct (searchinfo json_data "suggestion") as [[| | |new_guess| |]|[]];
        try (left; ends_after_one_request).
      right. now exists new_guess.
    + destruct (collect_hits json_data); left; ends_after_one_request.
  - left; ends_after_one_request.
Qed.

(** A response that always asks for a retry. *)
Lemma retries_resp_muskk : retries resp_muskk = true.
Proof. reflexivity. Qed.

Lemma search_title_keeps_retrying (k : nat) :
  forall title_guess srlimit,
    fst (search_title (repeat resp_muskk k) title_guess srlimit) = Awaiting /\
    length (snd (search_title (repeat resp_muskk k) title_guess srlimit)) = S k.
Proof.
  induction k as [|k IH]; intros title_guess srlimit.
  - split; reflexivity.
  - cbn [repeat].
    rewrite (search_title_retry resp_muskk (repeat resp_muskk k) title_guess
               "elon musk" srlimit);
      [|exists (VInt 0); split; reflexivity|reflexivity].
    destruct (IH "elon musk" default_srlimit) as [Ho Hl].
    unfold emit, except_KeyError. rewrite Ho. cbn. now rewrite Hl.
Qed.

(** C9. If the response to the retried query is not itself a zero-hit
    response with a suggestion, [search_title] ends (it returns or raises,
    it does not wait for a third answer) having sent at most two requests:
    one retry, depth one.  Nothing in the code bounds the depth: against
    [k] responses that all report zero hits and a suggestion the call has
    sent [k + 1] requests and is still waiting, for every [k]. *)
Theorem search_title_retry_depth :
  (forall first second later title_guess srlimit,
      retries second = false ->
      fst (search_title (first :: second :: later) title_guess srlimit) <> Awaiting /\
      length (snd (search_title (first :: second :: later) title_guess srlimit)) <= 2) /\
  (forall k title_guess srlimit,
      exists responses,
        length responses = k /\
        Forall (fun json_data => retries json_data = true) responses /\
        fst (search_title responses title_guess srlimit) = Awaiting /\
        length (snd (search_title responses title_guess srlimit)) = S k).
Proof.
  split.
  - intros first second later title_guess srlimit Hsecond.
    destruct (search_title_step first (second :: later) title_guess srlimit)
      as [(o & Ho & ->)|(new_guess & ->)].
    + cbn. split; [exact Ho|lia].
    + destruct (search_title_no_retry second later new_guess default_srlimit Hsecond)
        as (o & Ho & ->).
      unfold emit, except_KeyError. cbn.
      split; [|destruct o as [a|[]|]; cbn; lia].
      destruct o as [a|[]|]; cbn; congruence.
  - intros k title_guess srlimit. exists (repeat resp_muskk k).
    split; [apply repeat_length|]. split.
    + apply Forall_forall. intros r Hr. apply repeat_spec in Hr as ->.
      exact retries_resp_muskk.
    + apply search_title_keeps_retrying.
Qed.

Lemma search_title_retry_depth_witness :
  retries resp_musk = false /\
  fst (search_title [resp_muskk; resp_musk; resp_muskk] "elon muskk" 5) <> Awaiting /\
  length (snd (search_title [resp_muskk; resp_musk; resp_muskk] "elon muskk" 5)) <= 2.
Proof.
  split; [reflexivity|].
  exact (proj1 search_title_retry_depth
           resp_muskk resp_musk [resp_muskk] "elon muskk" 5%Z eq_refl).
Defined.

(** *** Exceptions of the retried call *)

(** The [try] encloses the retried call, so a [KeyError] raised in it (for
    instance by a body without [query]) ends the outer call with [None],
    where the direct call raises. *)
Theorem search_title_retry_catches_KeyError (json_data : value)
  (later : list value) (title_guess new_guess : string) (srlimit : Z) :
  no_hits json_data -> suggests json_data new_guess ->
  fst (search_title later new_guess default_srlimit) = Raised KeyError ->
  fst (search_title (json_data :: later) title_guess srlimit) = Returned None.
Proof.
  intros Hno Hs H.
  rewrite (search_title_retry json_data later title_guess new_guess srlimit Hno Hs).
  now rewrite (except_KeyError_caught _ H).
Qed.

Lemma search_title_retry_catches_KeyError_witness :
  fst (search_title [resp_error] "elon musk" 5) = Raised KeyError /\
  fst (search_title [resp_muskk; resp_error] "elon muskk" 5) = Returned None.
Proof.
  split; [reflexivity|].
  apply (search_title_retry_catches_KeyError resp_muskk [resp_error]
           "elon muskk" "elon musk" 5).
  - exists (VInt 0). split; reflexivity.
  - reflexivity.
  - reflexivity.
Defined.

(** C1 fails on the code when the retried call raises [KeyError]: the
    search for the misspelt title, answered by a zero-hit response that
    suggests ["elon musk"] and then by an error body without [query],
    returns [None] after two requests, while the direct search for
    ["elon musk"] against that error body raises [KeyError].  The [try]
    meant for the missing suggestion also encloses the recursive call. *)
Theorem search_title_retry_differs_from_direct_call :
  search_title [resp_muskk; resp_error] "elon muskk" 5
  = (Returned None,
     [Get WIKIURL (search_params "elon muskk" 5);
      Get WIKIURL (search_params "elon musk" 5)]) /\
  search_title [resp_error] "elon musk" 5
  = (Raised KeyError, [Get WIKIURL (search_params "elon musk" 5)]) /\
  fst (search_title [resp_muskk; resp_error] "elon muskk" 5)
  <> fst (search_title [resp_error] "elon musk" 5).
Proof. split; [reflexivity|split; [reflexivity|discriminate]]. Qed.

(** Once a call has an outcome, responses that would come later play no
    part in it. *)
Lemma search_title_more (responses extra : list value) :
  forall title_guess srlimit,
    fst (search_title responses title_guess srlimit) <> Awaiting ->
    search_title (responses ++ extra) title_guess srlimit
    = search_title responses title_guess srlimit.
Proof.
  induction responses as [|json_data later IH]; intros title_guess srlimit H.
  - now contradiction H.
  - cbn [app]. rewrite !search_title_cons in *. cbn [emit fst] in H.
    destruct (searchinfo json_data "totalhits") as [totalhits|e]; [|reflexivity].
    destruct (eq_int totalhits 0); [|reflexivity].
    destruct (searchinfo json_data "suggestion") as [[| | |new_guess| |]|[]];
      try reflexivity.
    rewrite IH; [reflexivity|].
    intros E. apply H. unfold except_KeyError. now rewrite E.
Qed.

End SearchTitle.

(* ===================================================================== *)
(** ** [get_links] *)
(* ===================================================================== *)

Section GetLinks.

Lemma get_links_loop_cons (json_data : value) (later : list value)
  (page_name : string) (num_links : option Z) (pllimit : Z) (pl : list value)
  (plcontinue : value) :
  get_links_loop (json_data :: later) page_name num_links pllimit pl plcontinue =
  emit (Get WIKIURL (links_params page_name pllimit plcontinue))
    match popped_page json_data with
    | Raise e => done (Raised e)
    | Ok page =>
        match getitem page "links" with
        | Raise KeyError =>
            emit (Log ERROR "Unable to get links for page %s" [VStr page_name])
              (done (Returned pl))
        | Raise e => done (Raised e)
        | Ok links =>
            match iterate links with
            | Raise e => done (Raised e)
            | Ok items =>
                match for_links num_links items pl with
                | Throw e => done (Raised e)
                | Return pl' => done (Returned pl')
                | Exhausted pl' =>
                    match next_cursor json_data with
                    | Ok cursor =>
                        emit (Log INFO "%s plcontinue: %s" [VStr page_name; cursor])
                          (get_links_loop later page_name num_links pllimit pl' cursor)
                    | Raise KeyError =>
                        emit (Log INFO "%s has fewer links than %i"
                                [VStr page_name; of_num_links num_links])
                          (done (Returned pl'))
                    | Raise e => done (Raised e)
                    end
                end
            end
        end
    end.
Proof. reflexivity. Qed.

(** *** The page size *)

Lemma links_params_pllimit (page_name : string) (pllimit : Z) (plcontinue : value) :
  getitem (links_params page_name pllimit plcontinue) "pllimit" = Ok (VInt pllimit).
Proof. reflexivity. Qed.

Lemma get_links_loop_pllimit (responses : list value) (page_name : string)
  (num_links : option Z) (pllimit : Z) :
  forall pl plcontinue,
    Forall (fun e => pllimit_of e = Ok (VInt pllimit))
      (requests (snd (get_links_loop responses page_name num_links pllimit pl
                        plcontinue))).
Proof.
  induction responses as [|json_data later IH]; intros pl plcontinue.
  - cbn. constructor; [apply links_params_pllimit|constructor].
  - rewrite get_links_loop_cons. unfold emit at 1. cbn [snd requests filter is_get].
    constructor; [apply links_params_pllimit|].
    destruct (popped_page json_data) as [page|e]; [|constructor].
    destruct (getitem page "links") as [links|[]]; try constructor.
    destruct (iterate links) as [items|e]; [|constructor].
    destruct (for_links num_links items pl) as [pl'|pl'|e]; try constructor.
    destruct (next_cursor json_data) as [cursor|[]]; try constructor.
    cbn. apply IH.
Qed.

(** C6. Every request of a call to [get_links] carries the same page
    size [pllimit]: 500 when [num_links] is [None] or exceeds 500, and
    [num_links] itself otherwise; it is never above 500. *)
Theorem get_links_page_size (responses : list value) (page_name : string)
  (num_links : option Z) :
  Forall (fun e => pllimit_of e = Ok (VInt (page_size num_links)))
    (requests (snd (get_links responses page_name num_links))) /\
  requests (snd (get_links responses page_name num_links)) <> [] /\
  (page_size num_links <= 500)%Z /\
  (num_links = None -> page_size num_links = 500%Z) /\
  (forall n, num_links = Some n ->
             ((500 < n)%Z -> page_size num_links = 500%Z) /\
             ((n <= 500)%Z -> page_size num_links = n)).
Proof.
  split; [apply get_links_loop_pllimit|]. split.
  - unfold get_links. destruct responses; cbn; discriminate.
  - unfold page_size. split; [|split].
    + destruct num_links as [n|]; [|lia].
      destruct (Z.gtb_spec n 500); lia.
    + now intros ->.
    + intros n ->. destruct (Z.gtb_spec n 500); split; intros; lia.
Qed.

(** *** A page entry without links *)

(** C8. When the page entry popped from the response's [pages] has no
    [links] field, [get_links] logs an error and returns the accumulator
    as it stands, without raising and without sending another request;
    on the first turn of the loop that is the empty sequence. *)
Theorem get_links_missing_links (json_data : value) (later : list value)
  (page_name : string) (num_links : option Z) (pllimit : Z) (pl : list value)
  (plcontinue : value) :
  lacks_links json_data ->
  get_links_loop (json_data :: later) page_name num_links pllimit pl plcontinue
  = (Returned pl,
     [Get WIKIURL (links_params page_name pllimit plcontinue);
      Log ERROR "Unable to get links for page %s" [VStr page_name]]) /\
  get_links (json_data :: later) page_name num_links
  = (Returned [],
     [Get WIKIURL (links_params page_name (page_size num_links) VNone);
      Log ERROR "Unable to get links for page %s" [VStr page_name]]).
Proof.
  intros (page & d & Hpage & -> & Hd).
  unfold get_links. rewrite !get_links_loop_cons, Hpage.
  cbn [getitem]. rewrite Hd. split; reflexivity.
Qed.

Lemma get_links_missing_links_witness :
  lacks_links resp_links_missing /\
  get_links [resp_links_missing; resp_links_last] "Elon Muskk" None
  = (Returned [],
     [Get WIKIURL (links_params "Elon Muskk" 500 VNone);
      Log ERROR "Unable to get links for page %s" [VStr "Elon Muskk"]]).
Proof.
  assert (lacks_links resp_links_missing) as H.
  { eexists. eexists. split; [reflexivity|]. split; reflexivity. }
  split; [exact H|].
  exact (proj2 (get_links_missing_links resp_links_missing [resp_links_last]
                  "Elon Muskk" None 500 [] VNone H)).
Defined.

(** *** Only article links *)

Lemma article_titles_in (items : list value) (title : value) :
  In title (article_titles items) ->
  exists link, In link items /\ is_article link title.
Proof.
  induction items as [|link items IH]; cbn; [intros []|].
  assert (In title (article_titles items) ->
          exists l, (link = l \/ In l items) /\ is_article l title) as Hrest.
  { intros Hin. destruct (IH Hin) as (l & Hl & Ha). exists l. split; [now right|exact Ha]. }
  destruct (getitem link "ns") as [ns|e] eqn:Hns; [|exact Hrest].
  destruct (eq_int ns 0) eqn:Hz; [|exact Hrest].
  destruct (getitem link "title") as [t|e] eqn:Ht; [|exact Hrest].
  intros [<-|Hin]; [|now apply Hrest].
  exists link. split; [now left|]. now exists ns.
Qed.

Lemma for_links_exhausted (num_links : option Z) (items : list value) :
  forall pl pl',
    for_links num_links items pl = Exhausted pl' ->
    pl' = pl ++ article_titles items.
Proof.
  induction items as [|link items IH]; intros pl pl'; cbn.
  - intros [= <-]. now rewrite app_nil_r.
  - destruct (getitem link "ns") as [ns|e]; [|discriminate].
    destruct (eq_int ns 0); [|apply IH].
    destruct (getitem link "title") as [t|e]; [|discriminate].
    destruct (len_is (pl ++ [t]) num_links); [discriminate|].
    intros H. apply IH in H. now rewrite <- app_assoc in H.
Qed.

Lemma for_links_return (num_links : option Z) (items : list value) :
  forall pl pl',
    for_links num_links items pl = Return pl' ->
    len_is pl' num_links = true /\
    exists k, k <= length (article_titles items) /\
              pl' = pl ++ firstn k (article_titles items).
Proof.
  induction items as [|link items IH]; intros pl pl'; cbn; [discriminate|].
  destruct (getitem link "ns") as [ns|e]; [|discriminate].
  destruct (eq_int ns 0).
  - destruct (getitem link "title") as [t|e]; [|discriminate].
    destruct (len_is (pl ++ [t]) num_links) eqn:Hlen.
    + intros [= <-]. split; [exact Hlen|]. exists 1. cbn. split; [lia|reflexivity].
    + intros H. apply IH in H as (Hl & k & Hk & ->). split; [exact Hl|].
      exists (S k). cbn. split; [lia|now rewrite <- app_assoc].
  - intros H. apply IH in H as (Hl & k & Hk & ->). split; [exact Hl|].
    now exists k.
Qed.

Lemma for_links_skips_other_namespaces (num_links : option Z) (items : list value) :
  forall pl,
    for_links num_links (filter in_article_namespace items) pl
    = for_links num_links items pl.
Proof.
  induction items as [|link items IH]; intros pl; [reflexivity|].
  cbn [filter]. unfold in_article_namespace at 1.
  destruct (getitem link "ns") as [ns|e] eqn:Hns.
  - destruct (eq_int ns 0) eqn:Hz; cbn [for_links]; rewrite Hns, Hz.
    + destruct (getitem link "title"); [|reflexivity].
      destruct (len_is _ _); [reflexivity|apply IH].
    + apply IH.
  - cbn [for_links]. now rewrite Hns.
Qed.

Lemma articles_of_items (json_data page links : value) (items : list value) :
  popped_page json_data = Ok page -> getitem page "links" = Ok links ->
  iterate links = Ok items -> articles_of json_data = article_titles items.
Proof.
  intros Hp Hl Hi. unfold articles_of, link_items. now rewrite Hp; cbn; rewrite Hl; cbn; rewrite Hi.
Qed.

Lemma get_links_loop_prefix (responses : list value) (page_name : string)
  (num_links : option Z) (pllimit : Z) :
  forall pl plcontinue pl',
    fst (get_links_loop responses page_name num_links pllimit pl plcontinue)
    = Returned pl' ->
    exists k, pl' = pl ++ firstn k (flat_map articles_of responses).
Proof.
  induction responses as [|json_data later IH]; intros pl plcontinue pl' H.
  - discriminate.
  - rewrite get_links_loop_cons in H. cbn [emit fst] in H.
    destruct (popped_page json_data) as [page|e] eqn:Hp; [|discriminate].
    destruct (getitem page "links") as [links|[]] eqn:Hl; try discriminate.
    + destruct (iterate links) as [items|e] eqn:Hi; [|discriminate].
      cbn [flat_map]. rewrite (articles_of_items _ _ _ _ Hp Hl Hi).
      destruct (for_links num_links items pl) as [pl1|pl1|e] eqn:Hf;
        [| |discriminate].
      * injection H as <-. apply for_links_return in Hf as (_ & k & Hk & ->).
        exists k. rewrite firstn_app.
        replace (k - length (article_titles items)) with 0 by lia.
        now rewrite app_nil_r.
      * apply for_links_exhausted in Hf as ->.
        destruct (next_cursor json_data) as [cursor|[]]; try discriminate.
        -- cbn in H. apply IH in H as (k & ->).
           exists (length (article_titles items) + k).
           now rewrite firstn_app_2, app_assoc.
        -- injection H as <-. exists (length (article_titles items) + 0).
           now rewrite firstn_app_2, app_nil_r.
    + injection H as <-. exists 0. now rewrite app_nil_r.
Qed.

Lemma in_firstn (k : nat) (l : list value) (x : value) :
  In x (firstn k l) -> In x l.
Proof.
  intros H. rewrite <- (firstn_skipn k l). apply in_or_app. now left.
Qed.

Lemma articles_of_in (json_data title : value) :
  In title (articles_of json_data) ->
  exists items link,
    link_items json_data = Ok items /\ In link items /\ is_article link title.
Proof.
  unfold articles_of. destruct (link_items json_data) as [items|e]; [|intros []].
  intros Hin. apply article_titles_in in Hin as (link & Hl & Ha).
  now exists items, link.
Qed.

(** C7. Whatever the responses, the sequence [get_links] returns is an
    initial part of the titles of the namespace-0 links of the responses,
    in their order: every returned title is the [title] of a link entry of
    some response whose [ns] equals 0, and taking the entries of other
    namespaces out of a response's links changes nothing in what the loop
    over them does (no exception, no log line, no entry in the result). *)
Theorem get_links_only_articles (responses : list value) (page_name : string)
  (num_links : option Z) (pl : list value) :
  fst (get_links responses page_name num_links) = Returned pl ->
  (exists k, pl = firstn k (flat_map articles_of responses)) /\
  (forall title,
      In title pl ->
      exists json_data items link,
        In json_data responses /\ link_items json_data = Ok items /\
        In link items /\ is_article link title) /\
  (forall items acc,
      for_links num_links (filter in_article_namespace items) acc
      = for_links num_links items acc).
Proof.
  intros H. unfold get_links in H.
  apply get_links_loop_prefix in H as (k & ->). cbn [app].
  split; [now exists k|]. split.
  - intros title Hin. apply in_firstn in Hin. apply in_flat_map in Hin as (r & Hr & Hin).
    apply articles_of_in in Hin as (items & link & Hi & Hl & Ha).
    now exists r, items, link.
  - intros items acc. apply for_links_skips_other_namespaces.
Qed.

Lemma get_links_only_articles_witness :
  fst (get_links [resp_links_first; resp_links_last] "Elon Musk" (Some 3%Z))
  = Returned [VStr "Boring Company"; VStr "Neuralink"; VStr "PayPal"] /\
  exists k, [VStr "Boring Company"; VStr "Neuralink"; VStr "PayPal"]
            = firstn k (flat_map articles_of [resp_links_first; resp_links_last]).
Proof.
  assert (fst (get_links [resp_links_first; resp_links_last] "Elon Musk" (Some 3%Z))
          = Returned [VStr "Boring Company"; VStr "Neuralink"; VStr "PayPal"]) as H
    by reflexivity.
  split; [exact H|].
  exact (proj1 (get_links_only_articles [resp_links_first; resp_links_last]
                  "Elon Musk" (Some 3%Z) _ H)).
Defined.

(** *** A requested count of zero *)

Lemma len_is_zero_after_append (pl : list value) (title : value) :
  len_is (pl ++ [title]) (Some 0%Z) = false.
Proof.
  unfold len_is. apply Z.eqb_neq. rewrite length_app. cbn. lia.
Qed.

Lemma for_links_zero (items : list value) :
  forall pl, for_links (Some 0%Z) items pl = for_links None items pl.
Proof.
  induction items as [|link items IH]; intros pl; [reflexivity|].
  cbn [for_links]. destruct (getitem link "ns") as [ns|e]; [|reflexivity].
  destruct (eq_int ns 0); [|apply IH].
  destruct (getitem link "title") as [t|e]; [|reflexivity].
  rewrite len_is_zero_after_append. cbn [len_is]. apply IH.
Qed.

Lemma for_links_none_no_return (items : list value) :
  forall pl pl', for_links None items pl <> Return pl'.
Proof.
  induction items as [|link items IH]; intros pl pl'; cbn; [discriminate|].
  destruct (getitem link "ns") as [ns|e]; [|discriminate].
  destruct (eq_int ns 0); [|apply IH].
  destruct (getitem link "title") as [t|e]; [discriminate || apply IH|discriminate].
Qed.

Lemma get_links_loop_zero (responses : list value) (page_name : string)
  (pllimit pllimit' : Z) :
  forall pl plcontinue,
    fst (get_links_loop responses page_name (Some 0%Z) pllimit pl plcontinue)
    = fst (get_links_loop responses page_name None pllimit' pl plcontinue).
Proof.
  induction responses as [|json_data later IH]; intros pl plcontinue; [reflexivity|].
  rewrite !get_links_loop_cons. cbn [emit fst].
  destruct (popped_page json_data) as [page|e]; [|reflexivity].
  destruct (getitem page "links") as [links|[]]; try reflexivity.
  destruct (iterate links) as [items|e]; [|reflexivity].
  rewrite for_links_zero.
  destruct (for_links None items pl) as [pl'|pl'|e]; try reflexivity.
  destruct (next_cursor json_data) as [cursor|[]]; try reflexivity.
  cbn. apply IH.
Qed.

Lemma get_links_loop_whole_pages (responses : list value) (page_name : string)
  (pllimit : Z) :
  forall pl plcontinue pl',
    fst (get_links_loop responses page_name None pllimit pl plcontinue)
    = Returned pl' ->
    exists j, pl' = pl ++ flat_map articles_of (firstn j responses).
Proof.
  induction responses as [|json_data later IH]; intros pl plcontinue pl' H.
  - discriminate.
  - rewrite get_links_loop_cons in H. cbn [emit fst] in H.
    destruct (popped_page json_data) as [page|e] eqn:Hp; [|discriminate].
    destruct (getitem page "links") as [links|[]] eqn:Hl; try discriminate.
    + destruct (iterate links) as [items|e] eqn:Hi; [|discriminate].
      destruct (for_links None items pl) as [pl1|pl1|e] eqn:Hf; [| |discriminate].
      * now apply for_links_none_no_return in Hf.
      * apply for_links_exhausted in Hf as ->.
        rewrite <- (articles_of_items _ _ _ _ Hp Hl Hi) in H.
        destruct (next_cursor json_data) as [cursor|[]]; try discriminate.
        -- cbn in H. apply IH in H as (j & ->). exists (S j).
           cbn [firstn flat_map]. now rewrite !app_assoc.
        -- injection H as <-. exists 1. cbn. now rewrite app_nil_r.
    + injection H as <-. exists 0. cbn. now rewrite app_nil_r.
Qed.

(** C10. With [num_links = 0] the test [len(pl) == num_links] is made
    only after an append, when [pl] holds at least one title, so it never
    holds and the loop over the links never returns early: the call ends
    exactly as the call with [num_links = None] does, with every
    namespace-0 title of the responses it went through, while each of its
    requests carries [pllimit = 0].  On the two sample pages it returns
    four titles, more than the zero it was asked for. *)
Theorem get_links_zero_never_short_circuits :
  (forall items pl pl', for_links (Some 0%Z) items pl <> Return pl') /\
  (forall responses page_name,
      fst (get_links responses page_name (Some 0%Z))
      = fst (get_links responses page_name None)) /\
  (forall responses page_name pl,
      fst (get_links responses page_name (Some 0%Z)) = Returned pl ->
      exists j, pl = flat_map articles_of (firstn j responses)) /\
  (forall responses page_name,
      Forall (fun e => pllimit_of e = Ok (VInt 0))
        (requests (snd (get_links responses page_name (Some 0%Z))))) /\
  (exists responses page_name pl,
      fst (get_links responses page_name (Some 0%Z)) = Returned pl /\
      0 < length pl).
Proof.
  split; [|split; [|split; [|split]]].
  - intros items pl pl'. rewrite for_links_zero. apply for_links_none_no_return.
  - intros responses page_name. apply get_links_loop_zero.
  - intros responses page_name pl H. unfold get_links in H.
    rewrite (get_links_loop_zero _ _ _ 500%Z) in H.
    now apply get_links_loop_whole_pages in H.
  - intros responses page_name.
    apply (get_links_loop_pllimit responses page_name (Some 0%Z) 0 [] VNone).
  - exists [resp_links_first; resp_links_last], "Elon Musk".
    eexists. split; [reflexivity|]. cbn. lia.
Qed.

(** C5 fails on the code at a requested count of zero: asked for no link,
    [get_links] goes through both sample pages and returns their four
    article links. *)
Theorem get_links_zero_returns_every_link :
  get_links [resp_links_first; resp_links_last] "Elon Musk" (Some 0%Z)
  = (Returned [VStr "Boring Company"; VStr "Neuralink"; VStr "PayPal"; VStr "SpaceX"],
     [Get WIKIURL (links_params "Elon Musk" 0 VNone);
      Log INFO "%s plcontinue: %s" [VStr "Elon Musk"; VStr "909036|0|PayPal"];
      Get WIKIURL (links_params "Elon Musk" 0 (VStr "909036|0|PayPal"));
      Log INFO "%s has fewer links than %i" [VStr "Elon Musk"; VInt 0]]).
Proof. reflexivity. Qed.

(** *** A positive requested count *)

Lemma for_links_below (n : Z) (items : list value) :
  forall pl pl',
    (Z.of_nat (length pl) < n)%Z ->
    for_links (Some n) items pl = Exhausted pl' ->
    (Z.of_nat (length pl') < n)%Z.
Proof.
  induction items as [|link items IH]; intros pl pl' Hpl; cbn.
  - now intros [= <-].
  - destruct (getitem link "ns") as [ns|e]; [|discriminate].
    destruct (eq_int ns 0); [|now apply IH].
    destruct (getitem link "title") as [t|e]; [|discriminate].
    destruct (Z.eqb_spec (Z.of_nat (length (pl ++ [t]))) n) as [|Hne];
      [discriminate|].
    apply IH. rewrite length_app in *. cbn in *. lia.
Qed.

Lemma get_links_loop_bound (n : Z) (responses : list value) (page_name : string)
  (pllimit : Z) :
  forall pl plcontinue pl',
    (Z.of_nat (length pl) < n)%Z ->
    fst (get_links_loop responses page_name (Some n) pllimit pl plcontinue)
    = Returned pl' ->
    (Z.of_nat (length pl') <= n)%Z.
Proof.
  induction responses as [|json_data later IH]; intros pl plcontinue pl' Hpl H.
  - discriminate.
  - rewrite get_links_loop_cons in H. cbn [emit fst] in H.
    destruct (popped_page json_data) as [page|e]; [|discriminate].
    destruct (getitem page "links") as [links|[]]; try discriminate.
    + destruct (iterate links) as [items|e]; [|discriminate].
      destruct (for_links (Some n) items pl) as [pl1|pl1|e] eqn:Hf;
        [| |discriminate].
      * injection H as <-. apply for_links_return in Hf as (Hlen & _).
        cbn in Hlen. apply Z.eqb_eq in Hlen. lia.
      * apply (for_links_below n items pl pl1 Hpl) in Hf.
        destruct (next_cursor json_data) as [cursor|[]]; try discriminate.
        -- cbn in H. now apply (IH pl1 cursor).
        -- injection H as <-. lia.
    + injection H as <-. lia.
Qed.

(** For a requested count of at least one, [get_links] never returns more
    titles than requested. *)
Theorem get_links_at_most_requested (responses : list value) (page_name : string)
  (n : Z) (pl : list value) :
  (1 <= n)%Z ->
  fst (get_links responses page_name (Some n)) = Returned pl ->
  (Z.of_nat (length pl) <= n)%Z.
Proof.
  intros Hn H. unfold get_links in H.
  apply (get_links_loop_bound n responses page_name (page_size (Some n)) [] VNone);
    [cbn; lia|exact H].
Qed.

Lemma get_links_at_most_requested_witness :
  (1 <= 3)%Z /\
  (Z.of_nat (length [VStr "Boring Company"; VStr "Neuralink"; VStr "PayPal"]) <= 3)%Z.
Proof.
  split; [lia|].
  apply (get_links_at_most_requested [resp_links_first; resp_links_last]
           "Elon Musk" 3); [lia|reflexivity].
Defined.

Lemma for_links_ok (m : nat) (items : list value) :
  Forall link_ok items ->
  forall pl,
    length pl < m ->
    for_links (Some (Z.of_nat m)) items pl =
    if length pl + length (article_titles items) <? m
    then Exhausted (pl ++ article_titles items)
    else Return (pl ++ firstn (m - length pl) (article_titles items)).
Proof.
  induction 1 as [|link items (ns & Hns & Htitle) _ IH]; intros pl Hpl.
  - cbn [for_links article_titles length]. rewrite Nat.add_0_r, app_nil_r.
    now destruct (Nat.ltb_spec (length pl) m); [|lia].
  - cbn [for_links article_titles]. rewrite Hns.
    destruct (eq_int ns 0); [|now apply IH].
    destruct (Htitle eq_refl) as (t & ->).
    unfold len_is. rewrite length_app. cbn [length].
    destruct (Z.eqb_spec (Z.of_nat (length pl + 1)) (Z.of_nat m)) as [E|E].
    + destruct (Nat.ltb_spec (length pl + S (length (article_titles items))) m);
        [lia|].
      replace (m - length pl) with 1 by lia. reflexivity.
    + rewrite IH by (rewrite length_app; cbn; lia).
      rewrite length_app. cbn [length].
      replace (length pl + 1 + length (article_titles items))
        with (length pl + S (length (article_titles items))) by lia.
      destruct (Nat.ltb_spec (length pl + S (length (article_titles items))) m).
      * now rewrite <- app_assoc.
      * replace (m - length pl) with (S (m - (length pl + 1))) by lia.
        now rewrite <- app_assoc.
Qed.

Lemma link_items_elim (json_data : value) (items : list value) :
  link_items json_data = Ok items ->
  exists page links,
    popped_page json_data = Ok page /\ getitem page "links" = Ok links /\
    iterate links = Ok items.
Proof.
  unfold link_items. intros H.
  destruct (popped_page json_data) as [page|e]; [|discriminate].
  cbn [bind] in H.
  destruct (getitem page "links") as [links|e] eqn:Hl; [|discriminate].
  cbn [bind] in H. now exists page, links.
Qed.

Lemma get_links_loop_exact (m : nat) (responses : list value) (page_name : string)
  (pllimit : Z) :
  paginated responses ->
  forall pl plcontinue,
    length pl < m ->
    m <= length pl + length (flat_map articles_of responses) ->
    fst (get_links_loop responses page_name (Some (Z.of_nat m)) pllimit pl plcontinue)
    = Returned (pl ++ firstn (m - length pl) (flat_map articles_of responses)).
Proof.
  induction 1 as [json_data (items & Hi & Hok)
                 |json_data cursor later (items & Hi & Hok) Hc _ IH];
    intros pl plcontinue Hpl Hm;
    destruct (link_items_elim _ _ Hi) as (page & links & Hp & Hl & Hit);
    rewrite get_links_loop_cons, Hp, Hl, Hit, (for_links_ok m items Hok pl Hpl);
    cbn [flat_map] in *;
    rewrite (articles_of_items _ _ _ _ Hp Hl Hit) in *.
  - rewrite app_nil_r in *.
    now destruct (Nat.ltb_spec (length pl + length (article_titles items)) m); [lia|].
  - rewrite length_app in Hm.
    destruct (Nat.ltb_spec (length pl + length (article_titles items)) m) as [Hlt|Hge].
    + rewrite Hc. cbn [emit fst]. rewrite IH by (rewrite length_app; lia).
      rewrite length_app, <- app_assoc. do 2 f_equal.
      replace (m - length pl)
        with (length (article_titles items)
              + (m - (length pl + length (article_titles items)))) by lia.
      now rewrite firstn_app_2.
    + cbn. do 2 f_equal. rewrite firstn_app.
      replace (m - length pl - length (article_titles items)) with 0 by lia.
      now rewrite app_nil_r.
Qed.

(** Once a call has an outcome, responses that would come later play no
    part in it. *)
Lemma get_links_loop_more (responses extra : list value) (page_name : string)
  (num_links : option Z) (pllimit : Z) :
  forall pl plcontinue,
    fst (get_links_loop responses page_name num_links pllimit pl plcontinue)
    <> Awaiting ->
    get_links_loop (responses ++ extra) page_name num_links pllimit pl plcontinue
    = get_links_loop responses page_name num_links pllimit pl plcontinue.
Proof.
  induction responses as [|json_data later IH]; intros pl plcontinue H.
  - now contradiction H.
  - cbn [app]. rewrite !get_links_loop_cons in *. cbn [emit fst] in H.
    destruct (popped_page json_data) as [page|e]; [|reflexivity].
    destruct (getitem page "links") as [links|[]]; try reflexivity.
    destruct (iterate links) as [items|e]; [|reflexivity].
    destruct (for_links num_links items pl) as [pl'|pl'|e]; try reflexivity.
    destruct (next_cursor json_data) as [cursor|[]]; try reflexivity.
    cbn in H. now rewrite IH.
Qed.

(** Over the pages of a paginated answer that hold at least [n >= 1]
    article links in total, [get_links] returns exactly the first [n] of
    their titles, following the cursors from page to page, and it does
    not look at any response beyond the one on which the count is
    reached. *)
Theorem get_links_exactly_requested (responses : list value) (page_name : string)
  (n : Z) :
  paginated responses -> (1 <= n)%Z ->
  (n <= Z.of_nat (length (flat_map articles_of responses)))%Z ->
  fst (get_links responses page_name (Some n))
  = Returned (firstn (Z.to_nat n) (flat_map articles_of responses)) /\
  length (firstn (Z.to_nat n) (flat_map articles_of responses)) = Z.to_nat n /\
  forall extra,
    get_links (responses ++ extra) page_name (Some n)
    = get_links responses page_name (Some n).
Proof.
  intros Hp Hn Hlen.
  assert (fst (get_links responses page_name (Some n))
          = Returned (firstn (Z.to_nat n) (flat_map articles_of responses))) as E.
  { unfold get_links. rewrite <- (Z2Nat.id n) at 1 2 by lia.
    rewrite (get_links_loop_exact (Z.to_nat n) responses page_name _ Hp [] VNone);
      cbn [length app]; [now rewrite Nat.sub_0_r|lia|lia]. }
  split; [exact E|]. split.
  - apply firstn_length_le. lia.
  - intros extra. apply get_links_loop_more. fold (get_links responses page_name (Some n)).
    now rewrite E.
Qed.

Lemma sample_pages_paginated : paginated [resp_links_first; resp_links_last].
Proof.
  apply (paginated_more resp_links_first (VStr "909036|0|PayPal"));
    [|reflexivity|apply paginated_last].
  all: eexists; split; [reflexivity|].
  all: repeat constructor.
  all: eexists; (split; [reflexivity|]); intros H; first [now eexists|discriminate H].
Defined.

Lemma get_links_exactly_requested_witness :
  fst (get_links [resp_links_first; resp_links_last] "Elon Musk" (Some 3%Z))
  = Returned [VStr "Boring Company"; VStr "Neuralink"; VStr "PayPal"].
Proof.
  apply (proj1 (get_links_exactly_requested [resp_links_first; resp_links_last]
                  "Elon Musk" 3 sample_pages_paginated ltac:(lia) ltac:(cbn; lia))).
Defined.

End GetLinks.

(* ===================================================================== *)
(** ** More on [cleanhtml] *)
(* ===================================================================== *)

Section CleanhtmlMore.
Import Re ReFacts.

Lemma close_tag_removed (s out : list ascii) :
  tags_removed s out -> close_tag s = None -> close_tag out = None.
Proof.
  induction 1 as [|m rest out Hm _ _|c s out _ _ IH]; intros H.
  - reflexivity.
  - exfalso. destruct Hm as (b & -> & Hb).
    cbn in H. rewrite <- app_assoc in H. cbn in H.
    now rewrite (close_tag_intro b rest Hb) in H.
  - cbn in *. destruct (Ascii.eqb c ">"); [discriminate|].
    destruct (Ascii.eqb c newline); [reflexivity|]. now apply IH.
Qed.

Lemma tags_removed_clean (s out : list ascii) :
  tags_removed s out ->
  forall pre suf, out = pre ++ suf -> ~ tag_starts suf.
Proof.
  induction 1 as [|m rest out _ _ IH|c s out Hc Hs IH]; intros pre suf E.
  - apply match_here_no_tag. symmetry in E. apply app_eq_nil in E as [_ ->].
    reflexivity.
  - now apply (IH pre).
  - destruct pre as [|c' pre]; cbn in E.
    + subst suf. apply match_here_no_tag. apply match_here_no_tag in Hc.
      rewrite match_here_cleanr in *.
      destruct (Ascii.eqb c "<"); [|reflexivity].
      now apply (close_tag_removed s out).
    + injection E as _ E. now apply (IH pre).
Qed.

Lemma cleanhtml_output_clean (raw_html : string) :
  forall pre suf, chars (cleanhtml raw_html) = pre ++ suf -> ~ tag_starts suf.
Proof.
  apply (tags_removed_clean (chars raw_html)).
  unfold cleanhtml. rewrite chars_str_of. apply sub_tags_removed.
Qed.

Lemma cleanhtml_twice (raw_html : string) :
  cleanhtml (cleanhtml raw_html) = cleanhtml raw_html.
Proof.
  unfold cleanhtml at 1.
  rewrite (sub_without_tag _ (cleanhtml_output_clean raw_html)).
  apply str_of_chars.
Qed.

(** What [cleanhtml] returns holds no tag any more, so cleaning it again
    changes nothing. *)
Theorem cleanhtml_leaves_no_tag (raw_html : string) :
  (forall pre suf, chars (cleanhtml raw_html) = pre ++ suf -> ~ tag_starts suf) /\
  cleanhtml (cleanhtml raw_html) = cleanhtml raw_html.
Proof.
  split; [apply cleanhtml_output_clean|apply cleanhtml_twice].
Qed.

Lemma tags_removed_length (s out : list ascii) :
  tags_removed s out -> length out <= length s.
Proof.
  induction 1 as [|m rest out _ _ IH|c s out _ _ IH]; cbn; [lia| |lia].
  rewrite length_app. lia.
Qed.

Lemma chars_length (s : string) : length (chars s) = String.length s.
Proof.
  unfold chars. induction s as [|c s IH]; cbn; [reflexivity|now rewrite IH].
Qed.

(** [cleanhtml] never returns more characters than it was given, and it
    returns its input as it is exactly when no tag starts anywhere in
    it. *)
Theorem cleanhtml_shrinks (raw_html : string) :
  String.length (cleanhtml raw_html) <= String.length raw_html /\
  (cleanhtml raw_html = raw_html <->
   forall pre suf, chars raw_html = pre ++ suf -> ~ tag_starts suf).
Proof.
  split.
  - rewrite <- !chars_length. apply tags_removed_length.
    unfold cleanhtml. rewrite chars_str_of. apply sub_tags_removed.
  - split.
    + intros E. rewrite <- E. apply cleanhtml_output_clean.
    + intros H. unfold cleanhtml. rewrite (sub_without_tag _ H).
      apply str_of_chars.
Qed.

Lemma sub_text_prefix (text s : list ascii) :
  ~ In "<"%char text -> sub cleanr [] (text ++ s) = text ++ sub cleanr [] s.
Proof.
  induction text as [|c text IH]; intros H; [reflexivity|].
  cbn [app]. rewrite sub_at_text.
  - f_equal. apply IH. intros Hin. apply H. now right.
  - apply match_here_no_tag. rewrite match_here_cleanr.
    destruct (Ascii.eqb_spec c "<") as [->|_]; [|reflexivity].
    exfalso. apply H. now left.
Qed.

Lemma chars_append (a b : string) : chars (a ++ b)%string = chars a ++ chars b.
Proof.
  unfold chars. induction a as [|c a IH]; cbn; [reflexivity|now rewrite IH].
Qed.

Lemma str_of_app (a b : list ascii) : str_of (a ++ b) = (str_of a ++ str_of b)%string.
Proof.
  unfold str_of. induction a as [|c a IH]; cbn; [reflexivity|now rewrite IH].
Qed.

(** Cleaning goes through the text piece by piece: text without ['<'] is
    copied, the tag that follows it is dropped, and the rest is cleaned on
    its own. *)
Theorem cleanhtml_text_then_tag (text tag rest : string) :
  ~ In "<"%char (chars text) -> is_tag (chars tag) ->
  cleanhtml (text ++ tag ++ rest)%string = (text ++ cleanhtml rest)%string.
Proof.
  intros Htext Htag. unfold cleanhtml.
  rewrite !chars_append, (sub_text_prefix _ _ Htext), (sub_at_tag _ _ Htag).
  now rewrite str_of_app, str_of_chars.
Qed.

Lemma cleanhtml_text_then_tag_witness :
  is_tag (chars "<b class=x>") /\
  cleanhtml ("Elon " ++ "<b class=x>" ++ "Musk</b>")%string = "Elon Musk".
Proof.
  assert (is_tag (chars "<b class=x>")) as Htag.
  { exists (chars "b class=x"). split; [reflexivity|].
    split; intros H; repeat (destruct H as [H|H]; [discriminate H|]); exact H. }
  split; [exact Htag|].
  rewrite (cleanhtml_text_then_tag "Elon " "<b class=x>" "Musk</b>");
    [reflexivity| |exact Htag].
  intros H; repeat (destruct H as [H|H]; [discriminate H|]); exact H.
Defined.

End CleanhtmlMore.

(* ===================================================================== *)
(** ** More on [search_title] *)
(* ===================================================================== *)

Section SearchTitleMore.

Lemma except_KeyError_snd (r : run (option (list value))) :
  snd (except_KeyError r) = snd r.
Proof. unfold except_KeyError. destruct r as [[a|[]|] t]; reflexivity. Qed.

(** The first request of a call carries the caller's title and limit;
    every later one is a retry and carries the limit 5.  The call logs
    nothing and sends at most one request more than it has answers. *)
Theorem search_title_requests (responses : list value) :
  forall title_guess srlimit,
  exists retried,
    snd (search_title responses title_guess srlimit)
    = Get WIKIURL (search_params title_guess srlimit) :: retried /\
    Forall (fun e =>
              (exists new_guess, e = Get WIKIURL (search_params new_guess 5)) /\
              srlimit_of e = Ok (VStr "5")) retried /\
    length retried <= length responses.
Proof.
  induction responses as [|json_data later IH]; intros title_guess srlimit.
  - exists []. repeat split; [constructor|cbn; lia].
  - rewrite search_title_cons. unfold emit. cbn [snd].
    eexists. split; [reflexivity|].
    destruct (searchinfo json_data "totalhits") as [totalhits|e];
      [|split; [constructor|cbn; lia]].
    destruct (eq_int totalhits 0).
    + destruct (searchinfo json_data "suggestion") as [[| | |new_guess| |]|[]];
        try (split; [constructor|cbn; lia]).
      rewrite except_KeyError_snd.
      destruct (IH new_guess default_srlimit) as (retried & -> & Hall & Hlen).
      split; [|cbn; lia].
      constructor; [|exact Hall]. split; [now exists new_guess|reflexivity].
    + destruct (collect_hits json_data); split; try constructor; cbn; lia.
Qed.

Lemma hits_ok_cleaned (pages : list value) :
  Forall hit_ok pages -> exists cl, Forall2 cleaned pages cl.
Proof.
  induction 1 as [|page pages (d & raw & -> & Hraw) _ (cl & Hcl)].
  - exists []. constructor.
  - eexists (_ :: cl). constructor; [|exact Hcl]. now exists d, raw.
Qed.

(** Against answers of the documented shape [search_title] never raises:
    it returns, or it is still waiting because every answer so far asked
    for a retry. *)
Theorem search_title_well_formed (responses : list value) :
  Forall search_ok responses ->
  forall title_guess srlimit,
    (forall e, fst (search_title responses title_guess srlimit) <> Raised e) /\
    (fst (search_title responses title_guess srlimit) = Awaiting ->
     Forall (fun json_data => retries json_data = true) responses).
Proof.
  induction 1 as [|json_data later Hok _ IH]; intros title_guess srlimit.
  - split; [discriminate|constructor].
  - rewrite search_title_cons. cbn [emit fst].
    destruct Hok as [[(totalhits & Hth & Hz) Hsug]|[(totalhits & Hth & Hz) Hhits]];
      rewrite Hth, Hz.
    + destruct Hsug as [Hnone|(new_guess & Hs)].
      * red in Hnone. rewrite Hnone. split; discriminate.
      * red in Hs. rewrite Hs.
        destruct (IH new_guess default_srlimit) as [Hraise Hwait].
        rewrite except_KeyError_other by apply Hraise.
        split; [apply Hraise|]. intros Hw. constructor; [|now apply Hwait].
        unfold retries. now rewrite Hth, Hs.
    + destruct Hhits as (pages & Hp & Hall).
      destruct (hits_ok_cleaned pages Hall) as (cl & Hcl).
      apply (collect_hits_spec json_data pages cl Hp) in Hcl. rewrite Hcl.
      split; discriminate.
Qed.

Lemma sample_search_ok : Forall search_ok [resp_muskk; resp_musk].
Proof.
  constructor; [|constructor; [|constructor]].
  - left. split; [exists (VInt 0); split; reflexivity|].
    right. now exists "elon musk".
  - right. split; [exists (VInt 2); split; reflexivity|].
    eexists. split; [reflexivity|].
    repeat constructor; eexists; eexists; split; reflexivity.
Defined.

Lemma search_title_well_formed_witness :
  Forall search_ok [resp_muskk; resp_musk] /\
  forall e, fst (search_title [resp_muskk; resp_musk] "elon muskk" 5) <> Raised e.
Proof.
  split; [exact sample_search_ok|].
  exact (proj1 (search_title_well_formed [resp_muskk; resp_musk] sample_search_ok
                  "elon muskk" 5%Z)).
Defined.

Lemma dict_set_set (k : string) (v v' : value) (d : list (string * value)) :
  dict_set k v (dict_set k v' d) = dict_set k v d.
Proof.
  induction d as [|[k0 v0] d IH]; cbn.
  - now rewrite String.eqb_refl.
  - destruct (String.eqb k k0) eqn:E; cbn; rewrite E; [reflexivity|now rewrite IH].
Qed.

Lemma cleaned_again (page page' : value) :
  cleaned page page' -> cleaned page' page'.
Proof.
  intros (d & raw & -> & Hraw & ->).
  exists (dict_set "snippet" (VStr (cleanhtml raw)) d), (cleanhtml raw).
  split; [reflexivity|]. split; [apply dict_get_set_same|].
  now rewrite cleanhtml_twice, dict_set_set.
Qed.

Lemma cleaned_snippet_clean (page page' : value) :
  cleaned page page' ->
  exists text,
    getitem page' "snippet" = Ok (VStr text) /\
    forall pre suf, chars text = pre ++ suf -> ~ tag_starts suf.
Proof.
  intros (d & raw & -> & Hraw & ->). exists (cleanhtml raw). split.
  - cbn. now rewrite dict_get_set_same.
  - apply cleanhtml_output_clean.
Qed.

(** Every hit [search_title] returns has a snippet in which no tag starts
    anywhere, and running the cleaning loop over the returned hits again
    gives them back unchanged. *)
Theorem search_title_snippets_clean (responses : list value)
  (title_guess : string) (srlimit : Z) (suggestions : list value) :
  fst (search_title responses title_guess srlimit) = Returned (Some suggestions) ->
  Forall (fun page' =>
            exists text,
              getitem page' "snippet" = Ok (VStr text) /\
              forall pre suf, chars text = pre ++ suf -> ~ tag_starts suf)
    suggestions /\
  clean_pages suggestions [] = Ok suggestions.
Proof.
  intros H. apply search_title_some_elim in H as (r & pages & _ & _ & _ & Hcl).
  split.
  - induction Hcl as [|p p' ps ps' Hp _ IH]; constructor;
      [now apply (cleaned_snippet_clean p)|exact IH].
  - apply clean_pages_spec. exists suggestions. split; [|reflexivity].
    induction Hcl as [|p p' ps ps' Hp _ IH]; constructor;
      [now apply (cleaned_again p)|exact IH].
Qed.

Lemma search_title_snippets_clean_witness :
  exists suggestions,
    fst (search_title [resp_muskk; resp_musk] "elon muskk" 5)
    = Returned (Some suggestions) /\
    clean_pages suggestions [] = Ok suggestions.
Proof.
  eexists. split; [reflexivity|].
  apply (search_title_snippets_clean [resp_muskk; resp_musk] "elon muskk" 5).
  reflexivity.
Defined.

End SearchTitleMore.

(* ===================================================================== *)
(** ** More on [get_links] *)
(* ===================================================================== *)

Section GetLinksMore.

Ltac loop_turn :=
  rewrite get_links_loop_cons; cbn [emit fst snd requests filter is_get].

(** *** The cursor from one request to the next *)

Lemma get_links_loop_cursors (responses : list value) (page_name : string)
  (num_links : option Z) (pllimit : Z) :
  forall pl plcontinue,
    let sent := requests (snd (get_links_loop responses page_name num_links
                                 pllimit pl plcontinue)) in
    nth_error sent 0 = Some (Get WIKIURL (links_params page_name pllimit plcontinue)) /\
    (forall i e,
        nth_error sent (S i) = Some e ->
        exists json_data cursor,
          nth_error responses i = Some json_data /\
          next_cursor json_data = Ok cursor /\
          e = Get WIKIURL (links_params page_name pllimit cursor)) /\
    length sent <= S (length responses).
Proof.
  induction responses as [|json_data later IH]; intros pl plcontinue sent; subst sent.
  - cbn. repeat split; [|lia]. intros [|i] e H; discriminate H.
  - loop_turn.
    assert (forall o : outcome (list value),
               (forall i e,
                   nth_error (requests (snd (done o))) i = Some e ->
                   exists json_data0 cursor,
                     nth_error (json_data :: later) i = Some json_data0 /\
                     next_cursor json_data0 = Ok cursor /\
                     e = Get WIKIURL (links_params page_name pllimit cursor)) /\
               S (length (requests (snd (done o)))) <= S (S (length later)))
      as Hdone.
    { intros o. cbn. split; [|lia]. intros [|i] e H; discriminate H. }
    split; [reflexivity|]. cbn [nth_error length].
    destruct (popped_page json_data) as [page|e0]; [|apply Hdone].
    destruct (getitem page "links") as [links|[]]; try apply Hdone.
    + destruct (iterate links) as [items|e0]; [|apply Hdone].
      destruct (for_links num_links items pl) as [pl'|pl'|e0]; try apply Hdone.
      destruct (next_cursor json_data) as [cursor|[]] eqn:Hc; try apply Hdone.
      * cbn [emit snd requests filter is_get].
        destruct (IH pl' cursor) as (H0 & Hnext & Hlen).
        unfold requests in *. split; [|lia].
        intros [|i] e H.
        -- exists json_data, cursor. cbn [nth_error]. rewrite H0 in H.
           injection H as <-. repeat split. exact Hc.
        -- destruct (Hnext i e H) as (r & c & Hr & Hrc & ->). now exists r, c.
      * cbn. split; [|lia]. intros [|i] e H; discriminate H.
    + cbn. split; [|lia]. intros [|i] e H; discriminate H.
Qed.

(** The first request of [get_links] carries no [plcontinue]; each later
    one carries the cursor of the response before it (and none when that
    cursor is [None]); the call sends at most one request more than it
    has answers. *)
Theorem get_links_follows_cursors (responses : list value) (page_name : string)
  (num_links : option Z) :
  let sent := requests (snd (get_links responses page_name num_links)) in
  (exists first,
      nth_error sent 0 = Some first /\ plcontinue_of first = Raise KeyError) /\
  (forall i e,
      nth_error sent (S i) = Some e ->
      exists json_data cursor,
        nth_error responses i = Some json_data /\
        next_cursor json_data = Ok cursor /\
        e = Get WIKIURL (links_params page_name (page_size num_links) cursor) /\
        plcontinue_of e
        = match cursor with VNone => Raise KeyError | _ => Ok cursor end) /\
  length sent <= S (length responses).
Proof.
  intros sent. subst sent. unfold get_links.
  destruct (get_links_loop_cursors responses page_name num_links
              (page_size num_links) [] VNone) as (H0 & Hnext & Hlen).
  split; [|split; [|exact Hlen]].
  - eexists. split; [exact H0|reflexivity].
  - intros i e H. destruct (Hnext i e H) as (r & c & Hr & Hc & ->).
    exists r, c. repeat split; auto. now destruct c.
Qed.

(** *** Pages gone through without the early return *)

Lemma for_links_all (num_links : option Z) (items : list value) :
  Forall link_ok items ->
  forall pl,
    unmet num_links (length pl) (length pl + length (article_titles items)) ->
    for_links num_links items pl = Exhausted (pl ++ article_titles items).
Proof.
  induction 1 as [|link items (ns & Hns & Htitle) _ IH]; intros pl Hun.
  - cbn. now rewrite app_nil_r.
  - cbn [for_links article_titles] in *. rewrite Hns in *.
    destruct (eq_int ns 0); [|now apply IH].
    destruct (Htitle eq_refl) as (t & Ht). rewrite Ht in *. cbn [length] in Hun.
    assert (len_is (pl ++ [t]) num_links = false) as ->.
    { destruct num_links as [n|]; [|reflexivity]. cbn in *.
      apply Z.eqb_neq. rewrite length_app. cbn. lia. }
    rewrite IH; [now rewrite <- app_assoc|].
    rewrite length_app. cbn [length].
    destruct num_links as [n|]; [|exact I]. cbn in *. lia.
Qed.

Lemma unmet_split (num_links : option Z) (lo mid hi : nat) :
  lo <= mid -> mid <= hi -> unmet num_links lo hi ->
  unmet num_links lo mid /\ unmet num_links mid hi.
Proof.
  intros H1 H2. destruct num_links as [n|]; cbn; [lia|auto].
Qed.

(** Going through pages that are followed by others, without the early
    return, is going on from the accumulator and the cursor they leave. *)
Lemma get_links_loop_app (pages rest : list value) (page_name : string)
  (num_links : option Z) (pllimit : Z) :
  Forall continued pages ->
  forall pl plcontinue,
    unmet num_links (length pl) (length pl + length (flat_map articles_of pages)) ->
    exists t,
      length (requests t) = length pages /\
      get_links_loop (pages ++ rest) page_name num_links pllimit pl plcontinue
      = (fst (get_links_loop rest page_name num_links pllimit
                (pl ++ flat_map articles_of pages) (last_cursor plcontinue pages)),
         t ++ snd (get_links_loop rest page_name num_links pllimit
                     (pl ++ flat_map articles_of pages)
                     (last_cursor plcontinue pages))).
Proof.
  induction 1 as [|json_data later [(items & Hi & Hok) (cursor & Hc)] _ IH];
    intros pl plcontinue Hun.
  - exists []. cbn. rewrite app_nil_r. split; [reflexivity|].
    now destruct (get_links_loop rest page_name num_links pllimit pl plcontinue).
  - destruct (link_items_elim _ _ Hi) as (page & links & Hp & Hl & Hit).
    cbn [flat_map] in *. rewrite (articles_of_items _ _ _ _ Hp Hl Hit) in *.
    rewrite length_app in Hun.
    apply (unmet_split num_links (length pl)
             (length pl + length (article_titles items))) in Hun as [Hun1 Hun2];
      [|lia|lia].
    cbn [app last_cursor]. rewrite get_links_loop_cons, Hp, Hl, Hit, Hc.
    rewrite (for_links_all num_links items Hok pl Hun1).
    destruct (IH (pl ++ article_titles items) cursor) as (t & Hlen & ->).
    { rewrite length_app. now rewrite Nat.add_assoc in Hun2. }
    rewrite <- app_assoc.
    exists (Get WIKIURL (links_params page_name pllimit plcontinue)
            :: Log INFO "%s plcontinue: %s" [VStr page_name; cursor] :: t).
    split; [|reflexivity].
    unfold requests in *. cbn [filter is_get length]. now rewrite Hlen.
Qed.

(** When the answer is paginated to its end and the requested count is
    not reached ([num_links] is [None], is not positive, or exceeds the
    number of article links), [get_links] returns the article links of
    all the pages, in order, with one request per page, and logs that the
    page has fewer links. *)
Theorem get_links_returns_all (pages : list value) (last : value)
  (page_name : string) (num_links : option Z) :
  Forall continued pages -> page_ok last -> next_cursor last = Raise KeyError ->
  unmet num_links 0 (length (flat_map articles_of (pages ++ [last]))) ->
  let r := get_links (pages ++ [last]) page_name num_links in
  fst r = Returned (flat_map articles_of (pages ++ [last])) /\
  length (requests (snd r)) = length (pages ++ [last]) /\
  In (Log INFO "%s has fewer links than %i" [VStr page_name; of_num_links num_links])
    (snd r).
Proof.
  intros Hpages (items & Hi & Hok) Hlast Hun r. subst r. unfold get_links.
  rewrite flat_map_app, length_app in *. cbn [flat_map] in *.
  rewrite app_nil_r in *.
  apply (unmet_split num_links 0 (length (flat_map articles_of pages))) in Hun
    as [Hun1 Hun2]; [|lia|lia].
  destruct (get_links_loop_app pages [last] page_name num_links
              (page_size num_links) Hpages [] VNone Hun1) as (t & Hlen & ->).
  cbn [app length fst snd].
  destruct (link_items_elim _ _ Hi) as (page & links & Hp & Hl & Hit).
  rewrite (articles_of_items _ _ _ _ Hp Hl Hit) in *.
  rewrite get_links_loop_cons, Hp, Hl, Hit.
  rewrite (for_links_all num_links items Hok _ Hun2), Hlast.
  cbn [emit done fst snd]. split; [reflexivity|]. split.
  - unfold requests. rewrite filter_app, length_app. fold (requests t).
    rewrite Hlen. cbn. lia.
  - apply in_or_app. right. right. now left.
Qed.

Lemma sample_first_continued : Forall continued [resp_links_first].
Proof.
  constructor; [|constructor]. split.
  - eexists. split; [reflexivity|]. repeat constructor.
    all: eexists; (split; [reflexivity|]); intros H;
      first [now eexists|discriminate H].
  - now eexists.
Defined.

Lemma sample_last_page_ok : page_ok resp_links_last.
Proof.
  eexists. split; [reflexivity|]. repeat constructor.
  all: eexists; (split; [reflexivity|]); intros H; now eexists.
Defined.

Lemma get_links_returns_all_witness :
  fst (get_links ([resp_links_first] ++ [resp_links_last]) "Elon Musk" None)
  = Returned [VStr "Boring Company"; VStr "Neuralink"; VStr "PayPal"; VStr "SpaceX"].
Proof.
  exact (proj1 (get_links_returns_all [resp_links_first] resp_links_last
                  "Elon Musk" None sample_first_continued sample_last_page_ok
                  eq_refl I)).
Defined.

(** A response from which no page entry can be taken (no [query], no
    [pages], an empty [pages], something that is not a dictionary) is not
    recovered like a missing [links] field: [get_links] raises, and the
    titles collected from the pages before it are not returned. *)
Theorem get_links_raises_after_pages (pages later : list value) (bad : value)
  (page_name : string) (num_links : option Z) (e : exn) :
  Forall continued pages ->
  unmet num_links 0 (length (flat_map articles_of pages)) ->
  popped_page bad = Raise e ->
  fst (get_links (pages ++ bad :: later) page_name num_links) = Raised e.
Proof.
  intros Hpages Hun Hbad. unfold get_links.
  destruct (get_links_loop_app pages (bad :: later) page_name num_links
              (page_size num_links) Hpages [] VNone Hun) as (t & _ & ->).
  cbn [fst]. now rewrite get_links_loop_cons, Hbad.
Qed.

Lemma get_links_raises_after_pages_witness :
  popped_page resp_error = Raise KeyError /\
  fst (get_links ([resp_links_first] ++ [resp_error]) "Elon Musk" None)
  = Raised KeyError.
Proof.
  split; [reflexivity|].
  exact (get_links_raises_after_pages [resp_links_first] [] resp_error
           "Elon Musk" None KeyError sample_first_continued I eq_refl).
Defined.

(** *** Answers of the documented shape *)

Lemma for_links_no_throw (num_links : option Z) (items : list value) :
  Forall link_ok items ->
  forall pl e, for_links num_links items pl <> Throw e.
Proof.
  induction 1 as [|link items (ns & Hns & Htitle) _ IH]; intros pl e; cbn.
  - discriminate.
  - rewrite Hns. destruct (eq_int ns 0); [|apply IH].
    destruct (Htitle eq_refl) as (t & ->).
    destruct (len_is (pl ++ [t]) num_links); [discriminate|apply IH].
Qed.

(** Against answers of the documented shape [get_links] never raises: it
    returns, or it is still waiting because every answer so far gave a
    cursor. *)
Theorem get_links_well_formed (responses : list value) (page_name : string)
  (num_links : option Z) :
  Forall links_ok responses ->
  (forall e, fst (get_links responses page_name num_links) <> Raised e) /\
  (fst (get_links responses page_name num_links) = Awaiting ->
   Forall (fun json_data => exists cursor, next_cursor json_data = Ok cursor)
     responses).
Proof.
  unfold get_links. generalize (page_size num_links) ([] : list value) VNone.
  intros pllimit pl plcontinue H. revert pl plcontinue.
  induction H as [|json_data later Hok _ IH]; intros pl plcontinue.
  - split; [discriminate|constructor].
  - rewrite get_links_loop_cons. cbn [emit fst].
    destruct Hok as [(page & d & Hp & -> & Hd)|[(items & Hi & Hok) Hcur]].
    + rewrite Hp. cbn [getitem]. rewrite Hd. split; discriminate.
    + destruct (link_items_elim _ _ Hi) as (page & links & Hp & Hl & Hit).
      rewrite Hp, Hl, Hit.
      pose proof (for_links_no_throw num_links items Hok pl) as Hthrow.
      destruct (for_links num_links items pl) as [pl'|pl'|e0];
        [split; discriminate| |now contradiction (Hthrow e0)].
      destruct Hcur as [(cursor & Hc)|Hc]; rewrite Hc.
      * cbn [emit fst]. destruct (IH pl' cursor) as [Hraise Hwait].
        split; [exact Hraise|]. intros Hw. constructor; [now exists cursor|].
        now apply Hwait.
      * split; discriminate.
Qed.

Lemma sample_links_ok : Forall links_ok [resp_links_first; resp_links_missing].
Proof.
  constructor; [|constructor; [|constructor]].
  - right. split.
    + exact (proj1 (Forall_inv sample_first_continued)).
    + left. exact (proj2 (Forall_inv sample_first_continued)).
  - left. eexists. eexists. split; [reflexivity|]. split; reflexivity.
Defined.

Lemma get_links_well_formed_witness :
  Forall links_ok [resp_links_first; resp_links_missing] /\
  forall e,
    fst (get_links [resp_links_first; resp_links_missing] "Elon Musk" (Some 15%Z))
    <> Raised e.
Proof.
  split; [exact sample_links_ok|].
  exact (proj1 (get_links_well_formed [resp_links_first; resp_links_missing]
                  "Elon Musk" (Some 15%Z) sample_links_ok)).
Defined.

End GetLinksMore.

(* ===================================================================== *)
(** ** The title sent to the API *)
(* ===================================================================== *)

Section Titles.

Lemma underscores_no_space (l : list ascii) :
  ~ In " "%char (map (fun c => if Ascii.eqb c " " then "_"%char else c) l).
Proof.
  induction l as [|c l IH]; cbn; [tauto|].
  intros [H|H]; [|exact (IH H)].
  destruct (Ascii.eqb_spec c " ") as [->|Hc]; [discriminate H|now apply Hc].
Qed.

Lemma underscores_id (l : list ascii) :
  ~ In " "%char l ->
  map (fun c => if Ascii.eqb c " " then "_"%char else c) l = l.
Proof.
  induction l as [|c l IH]; cbn; intros H; [reflexivity|].
  destruct (Ascii.eqb_spec c " ") as [->|_]; [exfalso; apply H; now left|].
  f_equal. apply IH. intros Hin. apply H. now right.
Qed.

(** The title put in a request ([srsearch], [titles]) holds no space, is
    as long as the title given, is the title itself when that holds no
    space, and is not changed by a second normalization. *)
Theorem replace_space_normalizes (title : string) :
  ~ In " "%char (chars (replace_space title)) /\
  String.length (replace_space title) = String.length title /\
  (~ In " "%char (chars title) -> replace_space title = title) /\
  replace_space (replace_space title) = replace_space title /\
  getitem (search_params title default_srlimit) "srsearch"
  = Ok (VStr (replace_space title)) /\
  getitem (links_params title 500 VNone) "titles" = Ok (VStr (replace_space title)).
Proof.
  unfold replace_space. rewrite !chars_str_of.
  split; [apply underscores_no_space|]. split; [|split; [|split]].
  - rewrite <- !chars_length, chars_str_of. apply length_map.
  - intros H. rewrite (underscores_id _ H). apply str_of_chars.
  - now rewrite (underscores_id _ (underscores_no_space (chars title))).
  - split; reflexivity.
Qed.

End Titles.

(* ===================================================================== *)
(** ** The entry point *)
(* ===================================================================== *)

Section Main.

Lemma main_cases (responses : list value) :
  main responses =
  match fst (search_title responses title_query default_srlimit) with
  | Returned None =>
      ((Returned tt, snd (search_title responses title_query default_srlimit)),
       [VStr (msg_format title_query)])
  | Returned (Some SUGGESTIONS) =>
      ((Returned tt, snd (search_title responses title_query default_srlimit)),
       VStr "render page with suggestions as buttons" :: SUGGESTIONS)
  | Raised e =>
      ((Raised e, snd (search_title responses title_query default_srlimit)), [])
  | Awaiting =>
      ((Awaiting, snd (search_title responses title_query default_srlimit)), [])
  end.
Proof.
  unfold main.
  now destruct (search_title responses title_query default_srlimit) as [[[l|]|e|] t].
Qed.

(** What the script prints.  With no hit and no suggestion it sends one
    request and prints the not-found message; with no hit and a suggestion
    answered by hits it prints the heading and then the cleaned hits, one
    per [print]; on a positive hit count with an empty hit list it prints
    the heading alone; it prints nothing unless the search returns. *)
Theorem main_prints (responses : list value) :
  (forall json_data later,
      responses = json_data :: later ->
      no_hits json_data -> no_suggestion json_data ->
      main responses
      = ((Returned tt, [Get WIKIURL (search_params "elon muskk" 5)]),
         [VStr (msg_format "elon muskk")])) /\
  (forall first second later new_guess pages,
      responses = first :: second :: later ->
      no_hits first -> suggests first new_guess ->
      has_hits second -> hit_list second = Ok pages -> Forall hit_ok pages ->
      exists suggestions,
        Forall2 cleaned pages suggestions /\
        main responses
        = ((Returned tt,
            [Get WIKIURL (search_params "elon muskk" 5);
             Get WIKIURL (search_params new_guess 5)]),
           VStr "render page with suggestions as buttons" :: suggestions)) /\
  (forall json_data later,
      responses = json_data :: later ->
      has_hits json_data -> hit_list json_data = Ok [] ->
      snd (main responses) = [VStr "render page with suggestions as buttons"]) /\
  (snd (main responses) <> [] -> fst (fst (main responses)) = Returned tt).
Proof.
  split; [|split; [|split]].
  - intros json_data later -> (totalhits & Hth & Hz) Hs. red in Hs.
    unfold main. now rewrite search_title_cons, Hth, Hz, Hs.
  - intros first second later new_guess pages -> Hno Hs Hhits Hp Hok.
    destruct (hits_ok_cleaned pages Hok) as (suggestions & Hcl).
    exists suggestions. split; [exact Hcl|].
    unfold main.
    rewrite (search_title_retry first (second :: later) title_query new_guess
               default_srlimit Hno Hs).
    rewrite (search_title_hits second later new_guess default_srlimit Hhits).
    apply (collect_hits_spec second pages suggestions Hp) in Hcl.
    now rewrite Hcl.
  - intros json_data later -> Hhits Hp. rewrite main_cases.
    rewrite (search_title_hits json_data later title_query default_srlimit Hhits).
    unfold collect_hits. now rewrite Hp.
  - rewrite main_cases.
    now destruct (fst (search_title responses title_query default_srlimit))
      as [[l|]|e|].
Qed.

Lemma main_prints_witness :
  exists suggestions,
    Forall2 cleaned [hit_musk; hit_views] suggestions /\
    main [resp_muskk; resp_musk]
    = ((Returned tt,
        [Get WIKIURL (search_params "elon muskk" 5);
         Get WIKIURL (search_params "elon musk" 5)]),
       VStr "render page with suggestions as buttons" :: suggestions).
Proof.
  apply (proj1 (proj2 (main_prints [resp_muskk; resp_musk]))
           resp_muskk resp_musk [] "elon musk" [hit_musk; hit_views] eq_refl).
  - exists (VInt 0). split; reflexivity.
  - reflexivity.
  - exists (VInt 2). split; reflexivity.
  - reflexivity.
  - repeat constructor; eexists; eexists; split; reflexivity.
Defined.

End Main.

(* ===================================================================== *)
(** ** Malformed entries *)
(* ===================================================================== *)

Section Malformed.

Lemma clean_pages_stops (good rest : list value) (bad : value) (e : exn) :
  Forall hit_ok good -> clean_page bad = Raise e ->
  forall suggestions, clean_pages (good ++ bad :: rest) suggestions = Raise e.
Proof.
  intros Hgood Hbad.
  induction Hgood as [|page good (d & raw & -> & Hraw) _ IH]; intros suggestions.
  - cbn. now rewrite Hbad.
  - cbn [app clean_pages]. unfold clean_page at 1. cbn [getitem].
    rewrite Hraw. cbn [bind]. apply IH.
Qed.

(** A hit that cannot be cleaned makes [search_title] raise, and the hits
    cleaned before it are not returned: [KeyError] for a hit without a
    snippet, [TypeError] for a snippet that is not a string or a hit that
    is not a dictionary. *)
Theorem search_title_bad_hit (json_data bad : value) (later good rest : list value)
  (title_guess : string) (srlimit : Z) (e : exn) :
  has_hits json_data -> hit_list json_data = Ok (good ++ bad :: rest) ->
  Forall hit_ok good -> clean_page bad = Raise e ->
  search_title (json_data :: later) title_guess srlimit
  = (Raised e, [Get WIKIURL (search_params title_guess srlimit)]) /\
  (forall d, bad = VDict d -> dict_get "snippet" d = None -> e = KeyError) /\
  (forall d v, bad = VDict d -> dict_get "snippet" d = Some v ->
               (forall raw, v <> VStr raw) -> e = TypeError) /\
  ((forall d, bad <> VDict d) -> e = TypeError).
Proof.
  intros Hhits Hp Hgood Hbad. split; [|split; [|split]].
  - rewrite (search_title_hits json_data later title_guess srlimit Hhits).
    unfold collect_hits. rewrite Hp. cbn [bind].
    now rewrite (clean_pages_stops good rest bad e Hgood Hbad).
  - intros d -> Hd. unfold clean_page in Hbad. cbn in Hbad. rewrite Hd in Hbad.
    cbn in Hbad. congruence.
  - intros d v -> Hd Hv. unfold clean_page in Hbad. cbn in Hbad.
    rewrite Hd in Hbad. cbn in Hbad.
    destruct v as [| | |raw| |]; congruence.
  - intros Hnd. unfold clean_page in Hbad.
    destruct bad as [| | | | |d]; cbn in Hbad; try congruence.
Qed.

Lemma search_title_bad_hit_witness :
  search_title
    [VDict [("query",
             VDict [("searchinfo", VDict [("totalhits", VInt 2)]);
                    ("search", VList [hit_musk; VDict [("title", VStr "Musk")]])])]]
    "musk" 5
  = (Raised KeyError, [Get WIKIURL (search_params "musk" 5)]).
Proof.
  apply (search_title_bad_hit _ (VDict [("title", VStr "Musk")]) [] [hit_musk] []
           "musk" 5 KeyError).
  - exists (VInt 2). split; reflexivity.
  - reflexivity.
  - repeat constructor. eexists. eexists. split; reflexivity.
  - reflexivity.
Defined.

Lemma for_links_app (num_links : option Z) (good more : list value) :
  Forall link_ok good ->
  forall pl,
    unmet num_links (length pl) (length pl + length (article_titles good)) ->
    for_links num_links (good ++ more) pl
    = for_links num_links more (pl ++ article_titles good).
Proof.
  induction 1 as [|link good (ns & Hns & Htitle) _ IH]; intros pl Hun.
  - cbn. now rewrite app_nil_r.
  - cbn [app for_links article_titles] in *. rewrite Hns in *.
    destruct (eq_int ns 0); [|now apply IH].
    destruct (Htitle eq_refl) as (t & Ht). rewrite Ht in *. cbn [length] in Hun.
    assert (len_is (pl ++ [t]) num_links = false) as ->.
    { destruct num_links as [n|]; [|reflexivity]. cbn in *.
      apply Z.eqb_neq. rewrite length_app. cbn. lia. }
    rewrite IH; [now rewrite <- app_assoc|].
    rewrite length_app. cbn [length].
    destruct num_links as [n|]; [|exact I]. cbn in *. lia.
Qed.

(** A link entry without [ns], or an article link without [title], makes
    [get_links] raise, whatever the links before it gave: what was
    collected is not returned, and no further request is sent. *)
Theorem get_links_bad_link (json_data bad : value) (later good rest : list value)
  (page_name : string) (num_links : option Z) (e : exn) :
  link_items json_data = Ok (good ++ bad :: rest) ->
  Forall link_ok good ->
  unmet num_links 0 (length (article_titles good)) ->
  (getitem bad "ns" = Raise e \/
   exists ns, getitem bad "ns" = Ok ns /\ eq_int ns 0 = true /\
              getitem bad "title" = Raise e) ->
  get_links (json_data :: later) page_name num_links
  = (Raised e, [Get WIKIURL (links_params page_name (page_size num_links) VNone)]).
Proof.
  intros Hi Hgood Hun Hbad. unfold get_links.
  destruct (link_items_elim _ _ Hi) as (page & links & Hp & Hl & Hit).
  rewrite get_links_loop_cons, Hp, Hl, Hit.
  rewrite (for_links_app num_links good (bad :: rest) Hgood [] Hun).
  cbn [for_links].
  destruct Hbad as [->|(ns & -> & -> & ->)]; reflexivity.
Qed.

Lemma get_links_bad_link_witness :
  get_links
    [VDict [("query",
             VDict [("pages",
                     VDict [("1",
                             VDict [("links",
                                     VList [VDict [("ns", VInt 0); ("title", VStr "PayPal")];
                                            VDict [("title", VStr "SpaceX")]])])])])]]
    "Elon Musk" None
  = (Raised KeyError, [Get WIKIURL (links_params "Elon Musk" 500 VNone)]).
Proof.
  apply (get_links_bad_link _ (VDict [("title", VStr "SpaceX")]) []
           [VDict [("ns", VInt 0); ("title", VStr "PayPal")]] []
           "Elon Musk" None KeyError).
  - reflexivity.
  - repeat constructor. eexists. split; [reflexivity|]. intros _. now eexists.
  - exact I.
  - left. reflexivity.
Defined.

End Malformed.
